(** * pvd::Stream — the provider stream's timestamp-continuity engine

    A shallow embedding of [src/projects/base/provider/stream.cpp]
    (OvenMediaEngine) and the properties its specification states about it.

    Conventions of the embedding:
    - [int64_t] values are integers of [Z]; every arithmetic operation of
      the source is followed by [wrap64], the two's-complement reduction.
    - [double] values are the kernel's binary64 floats ([PrimFloat]), so the
      conversions between ticks and microseconds round exactly as the
      compiled code does.
    - [std::map<uint32_t, int64_t>] is a [gmap N Z]; [find(..) != end()] is a
      lookup returning [Some], [operator[]] on an absent key yields [0].
    - a range-for loop over a [std::map] is a [map_fold]; the loops of this
      file overwrite the entry of the visited key or keep a running minimum,
      so the order of the visit does not matter.
    - member functions take the stream as an explicit state and return the
      result together with the new stream; the wall clock is an argument of
      the functions that read it. *)

From Stdlib Require Import ZArith Floats Strings.String.
From stdpp Require Import base option gmap fin_maps.

Local Open Scope Z_scope.

(** ** 64-bit signed integers *)

Module Int64.

Definition INT64_MIN : Z := - 2 ^ 63.
Definition INT64_MAX : Z := 2 ^ 63 - 1.

Definition in_range (z : Z) : Prop := INT64_MIN <= z <= INT64_MAX.

Definition wrap64 (z : Z) : Z := (z + 2 ^ 63) mod 2 ^ 64 - 2 ^ 63.

Definition add64 (a b : Z) : Z := wrap64 (a + b).
Definition sub64 (a b : Z) : Z := wrap64 (a - b).
Definition mul64 (a b : Z) : Z := wrap64 (a * b).
(** C++ [/] on integers truncates toward zero. *)
Definition div64 (a b : Z) : Z := wrap64 (Z.quot a b).

End Int64.
Export Int64.

(** ** IEEE-754 binary64 *)

Module Double.

(** [(double)z] for an [int64_t] z: round to nearest, ties to even. *)
Definition of_int64 (z : Z) : float :=
  SF2Prim (binary_normalize prec emax z 0 false).

(** The integral part of a finite double, [None] for infinities and NaN. *)
Definition trunc (d : float) : option Z :=
  match Prim2SF d with
  | S754_zero _ => Some 0
  | S754_finite sign m e =>
      let a := match e with
               | Z0 => Zpos m
               | Zpos _ => Z.shiftl (Zpos m) e
               | Zneg p => Z.shiftr (Zpos m) (Zpos p)
               end in
      Some (if sign then - a else a)
  | S754_infinity _ | S754_nan => None
  end.

(** [(int64_t)d]: truncation toward zero.  Outside the range of
    [int64_t] the C++ conversion has no defined result; the embedding
    takes the value the x86-64 conversion instruction produces there,
    [INT64_MIN]. *)
Definition to_int64 (d : float) : Z :=
  match trunc d with
  | Some z => if bool_decide (INT64_MIN <= z <= INT64_MAX) then z else INT64_MIN
  | None => INT64_MIN
  end.

Definition mul : float -> float -> float := PrimFloat.mul.
Definition div : float -> float -> float := PrimFloat.div.
(** [a > b] on doubles. *)
Definition gt (a b : float) : bool := PrimFloat.ltb b a.

(** The literal [99.99]: the double nearest to it. *)
Definition lit_99_99 : float := 0x1.8ff5c28f5c28fp+6%float.

End Double.

(** ** Collaborators declared outside [stream.cpp] *)

(** Modelled from the spec: [cmn::Timebase] is declared in the common
    headers, not in [stream.cpp].  The spec describes it as a rational
    timebase with a scalar factor for the tick/microsecond conversion:
    [GetExpr] is the length of one tick in seconds, [num / den], and
    [GetTimescale] the number of ticks per second, [den / num], both as
    doubles and both [0.0] when the divisor is zero. *)
Record Timebase := mkTimebase { tb_num : Z; tb_den : Z }.

Definition GetExpr (tb : Timebase) : float :=
  if tb_den tb =? 0 then Double.of_int64 0
  else Double.div (Double.of_int64 (tb_num tb)) (Double.of_int64 (tb_den tb)).

Definition GetTimescale (tb : Timebase) : float :=
  if tb_num tb =? 0 then Double.of_int64 0
  else Double.div (Double.of_int64 (tb_den tb)) (Double.of_int64 (tb_num tb)).

(** Modelled from the spec: the tags of [cmn::MediaType],
    [cmn::BitstreamFormat] and [cmn::PacketType] are declared in the common
    headers.  The code under study distinguishes the data media kind, the
    unspecified format, the unspecified packet type and the relay type
    ([OVT]); every other tag is kept as a number. *)
Inductive MediaType := MT_Unknown | MT_Video | MT_Audio | MT_Data | MT_Other (tag : N).
Inductive BitstreamFormat := BF_Unknown | BF_Format (tag : N).
Inductive PacketType := PT_Unknown | PT_OVT | PT_Type (tag : N).

Global Instance MediaType_eq_dec : EqDecision MediaType.
Proof. solve_decision. Defined.
Global Instance BitstreamFormat_eq_dec : EqDecision BitstreamFormat.
Proof. solve_decision. Defined.
Global Instance PacketType_eq_dec : EqDecision PacketType.
Proof. solve_decision. Defined.

(** A track of the Track Directory ([MediaTrack]). *)
Record MediaTrack := mkTrack {
  track_id_of : N;
  track_media_type : MediaType;
  track_timebase : Timebase
}.

(** [MediaPacket], as built by [SendDataFrame]. *)
Record MediaPacket := mkPacket {
  pkt_msid : Z;
  pkt_media_type : MediaType;
  pkt_track_id : N;
  pkt_data : list Byte.byte;
  pkt_pts : Z;
  pkt_dts : Z;
  pkt_bitstream_format : BitstreamFormat;
  pkt_packet_type : PacketType
}.

(** The owning application: its name and the answer of its ingress entry
    point [Application::SendFrame]. *)
Record Application := mkApplication {
  app_name : string;
  app_SendFrame : MediaPacket -> bool
}.

(** ** The stream *)

(** Modelled from the spec: [Stream::State] is declared in [stream.h]; the
    spec requires an active family, STOPPED and TERMINATED. *)
Inductive State :=
  IDLE | CONNECTED | DESCRIBED | PLAYING | STOPPED | ERROR | TERMINATED.

Global Instance State_eq_dec : EqDecision State.
Proof. solve_decision. Defined.

(** [std::chrono::system_clock::time_point], as its count of clock ticks;
    [time_point::min()] is the least count. *)
Definition time_point := Z.
Definition time_point_min : time_point := INT64_MIN.
(** Ticks of [system_clock] in a microsecond (the clock counts
    nanoseconds). *)
Definition ticks_per_microsecond : Z := 1000.

Record Stream := mkStream {
  _application : option Application;
  _msid : Z;
  _tracks : gmap N MediaTrack;
  _state : State;
  _last_pkt_received_time : time_point;
  _base_timestamp_map : gmap N Z;
  _source_timestamp_map : gmap N Z;
  _last_timestamp_map : gmap N Z;
  (* _last_origin_ts_map[0] (PTS) and _last_origin_ts_map[1] (DTS) *)
  _last_origin_ts_map0 : gmap N Z;
  _last_origin_ts_map1 : gmap N Z;
  (* _wraparound_count_map[0] (PTS) and _wraparound_count_map[1] (DTS) *)
  _wraparound_count_map0 : gmap N Z;
  _wraparound_count_map1 : gmap N Z;
  _start_timestamp : Z
}.

(** A stream as its constructors leave it. *)
Definition new_stream (app : option Application) (tracks : gmap N MediaTrack) : Stream :=
  {| _application := app; _msid := 0; _tracks := tracks; _state := IDLE;
     _last_pkt_received_time := time_point_min;
     _base_timestamp_map := ∅; _source_timestamp_map := ∅;
     _last_timestamp_map := ∅;
     _last_origin_ts_map0 := ∅; _last_origin_ts_map1 := ∅;
     _wraparound_count_map0 := ∅; _wraparound_count_map1 := ∅;
     _start_timestamp := -1 |}.

Definition set_state (v : State) (s : Stream) : Stream :=
  {| _application := _application s; _msid := _msid s; _tracks := _tracks s;
     _state := v;
     _last_pkt_received_time := _last_pkt_received_time s;
     _base_timestamp_map := _base_timestamp_map s;
     _source_timestamp_map := _source_timestamp_map s;
     _last_timestamp_map := _last_timestamp_map s;
     _last_origin_ts_map0 := _last_origin_ts_map0 s;
     _last_origin_ts_map1 := _last_origin_ts_map1 s;
     _wraparound_count_map0 := _wraparound_count_map0 s;
     _wraparound_count_map1 := _wraparound_count_map1 s;
     _start_timestamp := _start_timestamp s |}.

Definition set_last_pkt_received_time (v : time_point) (s : Stream) : Stream :=
  {| _application := _application s; _msid := _msid s; _tracks := _tracks s;
     _state := _state s;
     _last_pkt_received_time := v;
     _base_timestamp_map := _base_timestamp_map s;
     _source_timestamp_map := _source_timestamp_map s;
     _last_timestamp_map := _last_timestamp_map s;
     _last_origin_ts_map0 := _last_origin_ts_map0 s;
     _last_origin_ts_map1 := _last_origin_ts_map1 s;
     _wraparound_count_map0 := _wraparound_count_map0 s;
     _wraparound_count_map1 := _wraparound_count_map1 s;
     _start_timestamp := _start_timestamp s |}.

Definition set_base_timestamp_map (v : gmap N Z) (s : Stream) : Stream :=
  {| _application := _application s; _msid := _msid s; _tracks := _tracks s;
     _state := _state s;
     _last_pkt_received_time := _last_pkt_received_time s;
     _base_timestamp_map := v;
     _source_timestamp_map := _source_timestamp_map s;
     _last_timestamp_map := _last_timestamp_map s;
     _last_origin_ts_map0 := _last_origin_ts_map0 s;
     _last_origin_ts_map1 := _last_origin_ts_map1 s;
     _wraparound_count_map0 := _wraparound_count_map0 s;
     _wraparound_count_map1 := _wraparound_count_map1 s;
     _start_timestamp := _start_timestamp s |}.

Definition set_source_timestamp_map (v : gmap N Z) (s : Stream) : Stream :=
  {| _application := _application s; _msid := _msid s; _tracks := _tracks s;
     _state := _state s;
     _last_pkt_received_time := _last_pkt_received_time s;
     _base_timestamp_map := _base_timestamp_map s;
     _source_timestamp_map := v;
     _last_timestamp_map := _last_timestamp_map s;
     _last_origin_ts_map0 := _last_origin_ts_map0 s;
     _last_origin_ts_map1 := _last_origin_ts_map1 s;
     _wraparound_count_map0 := _wraparound_count_map0 s;
     _wraparound_count_map1 := _wraparound_count_map1 s;
     _start_timestamp := _start_timestamp s |}.

Definition set_last_timestamp_map (v : gmap N Z) (s : Stream) : Stream :=
  {| _application := _application s; _msid := _msid s; _tracks := _tracks s;
     _state := _state s;
     _last_pkt_received_time := _last_pkt_received_time s;
     _base_timestamp_map := _base_timestamp_map s;
     _source_timestamp_map := _source_timestamp_map s;
     _last_timestamp_map := v;
     _last_origin_ts_map0 := _last_origin_ts_map0 s;
     _last_origin_ts_map1 := _last_origin_ts_map1 s;
     _wraparound_count_map0 := _wraparound_count_map0 s;
     _wraparound_count_map1 := _wraparound_count_map1 s;
     _start_timestamp := _start_timestamp s |}.

Definition set_last_origin_ts_map0 (v : gmap N Z) (s : Stream) : Stream :=
  {| _application := _application s; _msid := _msid s; _tracks := _tracks s;
     _state := _state s;
     _last_pkt_received_time := _last_pkt_received_time s;
     _base_timestamp_map := _base_timestamp_map s;
     _source_timestamp_map := _source_timestamp_map s;
     _last_timestamp_map := _last_timestamp_map s;
     _last_origin_ts_map0 := v;
     _last_origin_ts_map1 := _last_origin_ts_map1 s;
     _wraparound_count_map0 := _wraparound_count_map0 s;
     _wraparound_count_map1 := _wraparound_count_map1 s;
     _start_timestamp := _start_timestamp s |}.

Definition set_last_origin_ts_map1 (v : gmap N Z) (s : Stream) : Stream :=
  {| _application := _application s; _msid := _msid s; _tracks := _tracks s;
     _state := _state s;
     _last_pkt_received_time := _last_pkt_received_time s;
     _base_timestamp_map := _base_timestamp_map s;
     _source_timestamp_map := _source_timestamp_map s;
     _last_timestamp_map := _last_timestamp_map s;
     _last_origin_ts_map0 := _last_origin_ts_map0 s;
     _last_origin_ts_map1 := v;
     _wraparound_count_map0 := _wraparound_count_map0 s;
     _wraparound_count_map1 := _wraparound_count_map1 s;
     _start_timestamp := _start_timestamp s |}.

Definition set_wraparound_count_map0 (v : gmap N Z) (s : Stream) : Stream :=
  {| _application := _application s; _msid := _msid s; _tracks := _tracks s;
     _state := _state s;
     _last_pkt_received_time := _last_pkt_received_time s;
     _base_timestamp_map := _base_timestamp_map s;
     _source_timestamp_map := _source_timestamp_map s;
     _last_timestamp_map := _last_timestamp_map s;
     _last_origin_ts_map0 := _last_origin_ts_map0 s;
     _last_origin_ts_map1 := _last_origin_ts_map1 s;
     _wraparound_count_map0 := v;
     _wraparound_count_map1 := _wraparound_count_map1 s;
     _start_timestamp := _start_timestamp s |}.

Definition set_wraparound_count_map1 (v : gmap N Z) (s : Stream) : Stream :=
  {| _application := _application s; _msid := _msid s; _tracks := _tracks s;
     _state := _state s;
     _last_pkt_received_time := _last_pkt_received_time s;
     _base_timestamp_map := _base_timestamp_map s;
     _source_timestamp_map := _source_timestamp_map s;
     _last_timestamp_map := _last_timestamp_map s;
     _last_origin_ts_map0 := _last_origin_ts_map0 s;
     _last_origin_ts_map1 := _last_origin_ts_map1 s;
     _wraparound_count_map0 := _wraparound_count_map0 s;
     _wraparound_count_map1 := v;
     _start_timestamp := _start_timestamp s |}.

Definition set_start_timestamp (v : Z) (s : Stream) : Stream :=
  {| _application := _application s; _msid := _msid s; _tracks := _tracks s;
     _state := _state s;
     _last_pkt_received_time := _last_pkt_received_time s;
     _base_timestamp_map := _base_timestamp_map s;
     _source_timestamp_map := _source_timestamp_map s;
     _last_timestamp_map := _last_timestamp_map s;
     _last_origin_ts_map0 := _last_origin_ts_map0 s;
     _last_origin_ts_map1 := _last_origin_ts_map1 s;
     _wraparound_count_map0 := _wraparound_count_map0 s;
     _wraparound_count_map1 := _wraparound_count_map1 s;
     _start_timestamp := v |}.

(** [GetTrack(track_id)]: the Track Directory lookup; [None] is the null
    pointer. *)
Definition GetTrack (s : Stream) (track_id : N) : option MediaTrack :=
  _tracks s !! track_id.

(** ** Lifecycle *)

(** [duration_cast<microseconds>(now - then).count()]: the difference of
    two instants, in whole microseconds. *)
Definition elapsed_microseconds (now then_ : time_point) : Z :=
  div64 (sub64 now then_) ticks_per_microsecond.

(** [Stream::UpdateReconnectTimeToBasetime].  The wall clock is read once;
    its value is the argument [now].  The loop visits every entry of
    [_base_timestamp_map] once and overwrites that entry. *)
Definition UpdateReconnectTimeToBasetime (now : time_point) (s : Stream) : Stream :=
  if bool_decide (_last_pkt_received_time s ≠ time_point_min) then
    let reconnection_time_us :=
      elapsed_microseconds now (_last_pkt_received_time s) in
    set_base_timestamp_map
      (map_fold (λ track_id timestamp m,
                   <[track_id := add64 timestamp reconnection_time_us]> m)
                (_base_timestamp_map s) (_base_timestamp_map s))
      s
  else s.

(** [Stream::Start]. *)
Definition Start (now : time_point) (s : Stream) : bool * Stream :=
  (true, UpdateReconnectTimeToBasetime now s).

(** The first loop of [ResetSourceStreamTimestamp]: the least timestamp of
    [_last_timestamp_map] over the ids that [GetTrack] finds, starting from
    [std::numeric_limits<int64_t>::max()]. *)
Definition min_last_timestamp (s : Stream) : Z :=
  map_fold (λ track_id timestamp last_timestamp,
              match GetTrack s track_id with
              | None => last_timestamp
              | Some _ => Z.min timestamp last_timestamp
              end)
           INT64_MAX (_last_timestamp_map s).

(** [Stream::ResetSourceStreamTimestamp]. *)
Definition ResetSourceStreamTimestamp (s : Stream) : Stream :=
  let last_timestamp := min_last_timestamp s in
  let base :=
    map_fold (λ track_id _ m, <[track_id := last_timestamp]> m)
             (_base_timestamp_map s) (_last_timestamp_map s) in
  set_source_timestamp_map ∅
    (set_start_timestamp (-1)
       (set_base_timestamp_map base s)).

(** [Stream::Stop]. *)
Definition Stop (s : Stream) : bool * Stream :=
  if bool_decide (_state s = STOPPED) then (true, s)
  else (true, set_state STOPPED (ResetSourceStreamTimestamp s)).

(** [Stream::Terminate]. *)
Definition Terminate (s : Stream) : bool * Stream :=
  (true, set_state TERMINATED s).

(** [Stream::SetState]. *)
Definition SetState (state : State) (s : Stream) : bool * Stream :=
  if bool_decide (state = STOPPED) then (false, s)
  else (true, set_state state s).

(** ** The absolute rebase strategy *)

(** [m[track_id]++] on a [std::map]: an absent entry starts from zero. *)
Definition increment (track_id : N) (m : gmap N Z) : gmap N Z :=
  <[track_id := add64 (default 0 (m !! track_id)) 1]> m.

(** The outcome of [AdjustTimestampByBase]: the returned value and the two
    reference parameters as the call leaves them. *)
Record Adjusted := mkAdjusted { adj_ret : Z; adj_pts : Z; adj_dts : Z }.

Definition expr_tb2us (track : MediaTrack) : float :=
  Double.mul (GetExpr (track_timebase track)) (Double.of_int64 1000000).
Definition expr_us2tb (track : MediaTrack) : float :=
  Double.div (GetTimescale (track_timebase track)) (Double.of_int64 1000000).

(** [(int64_t)((double)v * expr)] *)
Definition scale (v : Z) (expr : float) : Z :=
  Double.to_int64 (Double.mul (Double.of_int64 v) expr).

(** [Stream::AdjustTimestampByBase]. *)
Definition AdjustTimestampByBase (track_id : N) (pts dts max_timestamp : Z)
    (s : Stream) : Adjusted * Stream :=
  match GetTrack s track_id with
  | None => (mkAdjusted (-1) pts dts, s)
  | Some track =>
      (* 1. the start timestamp of this stream *)
      let s1 :=
        if bool_decide (_start_timestamp s = -1)
        then set_start_timestamp (scale dts (expr_tb2us track)) s
        else s in
      let start_timestamp_tb := scale (_start_timestamp s1) (expr_us2tb track) in
      (* 2. the base timestamp of the track *)
      let base_timestamp_tb :=
        match _base_timestamp_map s1 !! track_id with
        | Some base => scale base (expr_us2tb track)
        | None => 0
        end in
      (* 3. base_timestamp + (pts - start_timestamp) *)
      let final_pkt_pts_tb := add64 base_timestamp_tb (sub64 pts start_timestamp_tb) in
      let final_pkt_dts_tb := add64 base_timestamp_tb (sub64 dts start_timestamp_tb) in
      (* 4. wrap around, PTS *)
      let '(reverse_wraparound, s2) :=
        match _last_origin_ts_map0 s1 !! track_id with
        | Some last_origin_pts =>
            if bool_decide (sub64 last_origin_pts pts > div64 max_timestamp 2)
            then (false, set_wraparound_count_map0
                           (increment track_id (_wraparound_count_map0 s1)) s1)
            else if bool_decide (sub64 pts last_origin_pts > div64 max_timestamp 2)
            then (true, s1)
            else (false, s1)
        | None => (false, s1)
        end in
      let final_pkt_pts_tb :=
        match _wraparound_count_map0 s2 !! track_id with
        | Some count =>
            let wraparound_count :=
              add64 count (if reverse_wraparound then -1 else 0) in
            add64 final_pkt_pts_tb (mul64 wraparound_count max_timestamp)
        | None => final_pkt_pts_tb
        end in
      (* wrap around, DTS *)
      let s3 :=
        match _last_origin_ts_map1 s2 !! track_id with
        | Some last_origin_dts =>
            if bool_decide (sub64 last_origin_dts dts > div64 max_timestamp 2)
            then set_wraparound_count_map1
                   (increment track_id (_wraparound_count_map1 s2)) s2
            else s2
        | None => s2
        end in
      let final_pkt_dts_tb :=
        match _wraparound_count_map1 s3 !! track_id with
        | Some wraparound_count =>
            add64 final_pkt_dts_tb (mul64 wraparound_count max_timestamp)
        | None => final_pkt_dts_tb
        end in
      (* 5. the last timestamp, in microseconds *)
      let s4 :=
        set_last_timestamp_map
          (<[track_id := scale final_pkt_dts_tb (expr_tb2us track)]>
             (_last_timestamp_map s3)) s3 in
      let s5 :=
        if reverse_wraparound then s4
        else set_last_origin_ts_map0
               (<[track_id := pts]> (_last_origin_ts_map0 s4)) s4 in
      let s6 :=
        set_last_origin_ts_map1 (<[track_id := dts]> (_last_origin_ts_map1 s5)) s5 in
      (mkAdjusted final_pkt_pts_tb final_pkt_pts_tb final_pkt_dts_tb, s6)
  end.

(** Steps 1 to 3 of [AdjustTimestampByBase], named for the statements
    below: the start timestamp the call works with (captured from [dts] when
    unset), and [base_timestamp_tb + (v - start_timestamp_tb)] for a raw
    value [v] of the track. *)
Definition start_timestamp_for (track : MediaTrack) (dts : Z) (s : Stream) : Z :=
  if bool_decide (_start_timestamp s = -1)
  then scale dts (expr_tb2us track)
  else _start_timestamp s.

Definition rebased (track : MediaTrack) (track_id : N) (v dts : Z) (s : Stream) : Z :=
  let start_timestamp_tb :=
    scale (start_timestamp_for track dts s) (expr_us2tb track) in
  let base_timestamp_tb :=
    match _base_timestamp_map s !! track_id with
    | Some base => scale base (expr_us2tb track)
    | None => 0
    end in
  add64 base_timestamp_tb (sub64 v start_timestamp_tb).

(** [Stream::GetBaseTimestamp]. *)
Definition GetBaseTimestamp (track_id : N) (s : Stream) : Z * Stream :=
  match GetTrack s track_id with
  | None => (-1, s)
  | Some track =>
      let base_timestamp := default 0 (_base_timestamp_map s !! track_id) in
      let base_timestamp_tb :=
        Double.div
          (Double.mul (Double.of_int64 base_timestamp)
                      (GetTimescale (track_timebase track)))
          (Double.of_int64 1000000) in
      (Double.to_int64 base_timestamp_tb, s)
  end.

(** ** The delta accumulation strategy *)

(** [last > ((double)max_timestamp * 99.99) / 100], the left side converted
    to double for the comparison. *)
Definition exceeds_99_99_percent (last max_timestamp : Z) : bool :=
  Double.gt (Double.of_int64 last)
            (Double.div (Double.mul (Double.of_int64 max_timestamp) Double.lit_99_99)
                        (Double.of_int64 100)).

(** [Stream::GetDeltaTimestamp]. *)
Definition GetDeltaTimestamp (track_id : N) (timestamp max_timestamp : Z)
    (s : Stream) : Z * Stream :=
  (* the track is looked up and not used *)
  let track := GetTrack s track_id in
  match _source_timestamp_map s !! track_id with
  | None =>
      (0, set_source_timestamp_map
            (<[track_id := timestamp]> (_source_timestamp_map s)) s)
  | Some last =>
      let delta :=
        if bool_decide (timestamp < last) then
          if exceeds_99_99_percent last max_timestamp
          then add64 (sub64 max_timestamp last) timestamp
          else 0
        else sub64 timestamp last in
      (delta, set_source_timestamp_map
                (<[track_id := timestamp]> (_source_timestamp_map s)) s)
  end.

(** [Stream::AdjustTimestampByDelta]. *)
Definition AdjustTimestampByDelta (track_id : N) (timestamp max_timestamp : Z)
    (s : Stream) : Z * Stream :=
  let curr_timestamp :=
    match _last_timestamp_map s !! track_id with
    | None => 0
    | Some last => last
    end in
  let '(delta, s1) := GetDeltaTimestamp track_id timestamp max_timestamp s in
  let curr_timestamp := add64 curr_timestamp delta in
  (curr_timestamp,
   set_last_timestamp_map (<[track_id := curr_timestamp]> (_last_timestamp_map s1)) s1).

(** ** Frame dispatch *)

(** What a dispatch call does to its collaborators, in order. *)
Inductive Effect :=
| LogError (message : string)
| IncreaseBytesIn (length : N)
| ApplicationSendFrame (packet : MediaPacket).

(** Modelled from the spec: [GetFirstTrackByType] belongs to the Track
    Directory ([info::Stream]); [SendDataFrame] requires a track of the data
    media kind to exist.  The directory is ordered by id, so the first track
    of a kind is the one of least id. *)
Definition GetFirstTrackByType (s : Stream) (type : MediaType) : option MediaTrack :=
  map_fold (λ track_id track found,
              if bool_decide (track_media_type track = type) then
                match found with
                | Some other =>
                    if bool_decide (track_id < track_id_of other)%N
                    then Some track else found
                | None => Some track
                end
              else found)
           None (_tracks s).

(** [Stream::SendFrame]; [now] is the value of the wall clock. *)
Definition SendFrame (now : time_point) (packet : MediaPacket) (s : Stream)
    : bool * Stream * list Effect :=
  match _application s with
  | None => (false, s, [])
  | Some application =>
      if bool_decide (pkt_packet_type packet = PT_Unknown) then
        (false, s, [LogError "The packet type must be specified."])
      else if bool_decide (pkt_packet_type packet ≠ PT_OVT)
              && bool_decide (pkt_bitstream_format packet = BF_Unknown) then
        (false, s, [LogError "The bitstream format must be specified."])
      else
        (app_SendFrame application packet,
         set_last_pkt_received_time now s,
         [IncreaseBytesIn (N.of_nat (length (pkt_data packet)));
          ApplicationSendFrame packet])
  end.

(** [Stream::SendDataFrame]; [frame] is [None] for a null pointer. *)
Definition SendDataFrame (now : time_point) (timestamp : Z)
    (format : BitstreamFormat) (packet_type : PacketType)
    (frame : option (list Byte.byte)) (s : Stream)
    : bool * Stream * list Effect :=
  match frame with
  | None => (false, s, [])
  | Some data =>
      match GetFirstTrackByType s MT_Data with
      | None => (false, s, [LogError "Data track is not found."])
      | Some data_track =>
          let event_message :=
            mkPacket (_msid s) MT_Data (track_id_of data_track) data
                     timestamp timestamp format packet_type in
          SendFrame now event_message s
      end
  end.

(** ** Calls and runs *)

(** The calls a producer or the control path issue on a stream. *)
Inductive Call :=
| CallStart (now : time_point)
| CallStop
| CallTerminate
| CallSetState (state : State)
| CallAdjustTimestampByBase (track_id : N) (pts dts max_timestamp : Z)
| CallGetBaseTimestamp (track_id : N)
| CallAdjustTimestampByDelta (track_id : N) (timestamp max_timestamp : Z)
| CallSendFrame (now : time_point) (packet : MediaPacket)
| CallSendDataFrame (now : time_point) (timestamp : Z) (format : BitstreamFormat)
    (packet_type : PacketType) (frame : option (list Byte.byte)).

(** The stream after a call. *)
Definition exec (c : Call) (s : Stream) : Stream :=
  match c with
  | CallStart now => (Start now s).2
  | CallStop => (Stop s).2
  | CallTerminate => (Terminate s).2
  | CallSetState state => (SetState state s).2
  | CallAdjustTimestampByBase track_id pts dts max_timestamp =>
      (AdjustTimestampByBase track_id pts dts max_timestamp s).2
  | CallGetBaseTimestamp track_id => (GetBaseTimestamp track_id s).2
  | CallAdjustTimestampByDelta track_id timestamp max_timestamp =>
      (AdjustTimestampByDelta track_id timestamp max_timestamp s).2
  | CallSendFrame now packet => (SendFrame now packet s).1.2
  | CallSendDataFrame now timestamp format packet_type frame =>
      (SendDataFrame now timestamp format packet_type frame s).1.2
  end.

(** The stream after a sequence of calls, first call first. *)
Definition run (calls : list Call) (s : Stream) : Stream :=
  foldl (λ acc c, exec c acc) s calls.

(** A call that ends the epoch: a [Stop] that resets the engine. *)
Definition ends_epoch (c : Call) (s : Stream) : bool :=
  match c with
  | CallStop => bool_decide (_state s ≠ STOPPED)
  | _ => false
  end.

(** A run that stays within one epoch. *)
Fixpoint within_epoch (calls : list Call) (s : Stream) : bool :=
  match calls with
  | [] => true
  | c :: rest => negb (ends_epoch c s) && within_epoch rest (exec c s)
  end.

(** The streams a newly built stream can become. *)
Definition reachable (s : Stream) : Prop :=
  ∃ app tracks calls, s = run calls (new_stream app tracks).

(** An invariant of reachable streams: every base timestamp belongs to an
    id that has a last timestamp.  Base entries are only created by the
    reset, from the last timestamps, and no last timestamp is ever removed. *)
Definition base_within_last (s : Stream) : Prop :=
  dom (_base_timestamp_map s) ⊆ dom (_last_timestamp_map s).

(** ** Streams used as examples *)

Module Examples.

Definition MAX_33BIT : Z := 2 ^ 33 - 1.
Definition MAX_32BIT : Z := 4294967295.

Definition video_90k : MediaTrack := mkTrack 1 MT_Video (mkTimebase 1 90000).
Definition audio_48k : MediaTrack := mkTrack 2 MT_Audio (mkTimebase 1 48000).
Definition video_us : MediaTrack := mkTrack 1 MT_Video (mkTimebase 1 1000000).

(** A new stream with a 90 kHz video track and a 48 kHz audio track. *)
Definition fresh : Stream :=
  new_stream None (<[1%N := video_90k]> (<[2%N := audio_48k]> ∅)).

(** A new stream whose only track counts microseconds. *)
Definition fresh_us : Stream := new_stream None {[ 1%N := video_us ]}.

(** A playing stream: both tracks have emitted timestamps, a packet was
    received at tick 1000000000000. *)
Definition playing : Stream :=
  {| _application := None; _msid := 0;
     _tracks := <[1%N := video_90k]> (<[2%N := audio_48k]> ∅);
     _state := PLAYING;
     _last_pkt_received_time := 1000000000000;
     _base_timestamp_map := <[1%N := 100]> (<[2%N := 100]> ∅);
     _source_timestamp_map := {[ 2%N := 777 ]};
     _last_timestamp_map := <[1%N := 5000]> (<[2%N := 3000]> ∅);
     _last_origin_ts_map0 := ∅; _last_origin_ts_map1 := ∅;
     _wraparound_count_map0 := ∅; _wraparound_count_map1 := ∅;
     _start_timestamp := 11111 |}.

(** The delta strategy after a first timestamp 1000, and after a first
    timestamp close to the 32-bit wrap. *)
Definition delta_at_1000 : Stream :=
  run [CallAdjustTimestampByDelta 1 1000 MAX_32BIT] fresh.
Definition delta_near_wrap : Stream :=
  run [CallAdjustTimestampByDelta 1 4294967290 MAX_32BIT] fresh.

(** The rebase strategy after the raw timestamps [max - 10] and [3] of the
    video track: a forward wraparound has been counted. *)
Definition wrapped_once : Stream :=
  run [CallAdjustTimestampByBase 1 (MAX_33BIT - 10) (MAX_33BIT - 10) MAX_33BIT;
       CallAdjustTimestampByBase 1 3 3 MAX_33BIT] fresh.

End Examples.

(** ** Notions used by the further properties *)

(** The validation of [SendFrame]: the packet type is specified, and so is
    the bitstream format unless the type is the relay type. *)
Definition passes_validation (packet : MediaPacket) : bool :=
  negb (bool_decide (pkt_packet_type packet = PT_Unknown))
  && (bool_decide (pkt_packet_type packet = PT_OVT)
      || negb (bool_decide (pkt_bitstream_format packet = BF_Unknown))).

(** A raw PTS that [AdjustTimestampByBase] classifies neither as a forward
    nor as a reverse wraparound against the last raw PTS of the track. *)
Definition no_pts_wraparound (track_id : N) (pts max_timestamp : Z) (s : Stream) : Prop :=
  ∀ last_origin_pts,
    _last_origin_ts_map0 s !! track_id = Some last_origin_pts ->
    ¬ (sub64 last_origin_pts pts > div64 max_timestamp 2)
    ∧ ¬ (sub64 pts last_origin_pts > div64 max_timestamp 2).

(** The same for the raw DTS, which has the forward test only. *)
Definition no_dts_wraparound (track_id : N) (dts max_timestamp : Z) (s : Stream) : Prop :=
  ∀ last_origin_dts,
    _last_origin_ts_map1 s !! track_id = Some last_origin_dts ->
    ¬ (sub64 last_origin_dts dts > div64 max_timestamp 2).

(** The wraparound bookkeeping of a stream is about known tracks only: the
    last raw PTS and DTS are recorded for the same ids, all of the Track
    Directory, and a counter exists only beside a last raw value. *)
Definition wraparound_maps_known (s : Stream) : Prop :=
  dom (_last_origin_ts_map0 s) = dom (_last_origin_ts_map1 s)
  ∧ dom (_last_origin_ts_map1 s) ⊆ dom (_tracks s)
  ∧ dom (_wraparound_count_map0 s) ⊆ dom (_last_origin_ts_map0 s)
  ∧ dom (_wraparound_count_map1 s) ⊆ dom (_last_origin_ts_map1 s).

(** A sequence of raw timestamps that never goes below [previous] nor
    decreases. *)
Fixpoint nondecreasing_from (previous : Z) (timestamps : list Z) : Prop :=
  match timestamps with
  | [] => True
  | t :: rest => previous <= t ∧ nondecreasing_from t rest
  end.

(** The calls of the delta strategy for a sequence of raw timestamps of one
    track. *)
Definition delta_calls (track_id : N) (max_timestamp : Z) (timestamps : list Z)
    : list Call :=
  map (λ t, CallAdjustTimestampByDelta track_id t max_timestamp) timestamps.

(** ** Further streams used as examples *)

Module MoreExamples.

Definition refusing_application : Application :=
  mkApplication "live" (λ _, false).

Definition data_1k : MediaTrack := mkTrack 3 MT_Data (mkTimebase 1 1000).
Definition film_600 : MediaTrack := mkTrack 1 MT_Video (mkTimebase 1 600).

(** A new stream of an application that refuses every frame, with a video,
    an audio and a data track. *)
Definition attached : Stream :=
  new_stream (Some refusing_application)
    (<[1%N := Examples.video_90k]>
       (<[2%N := Examples.audio_48k]> (<[3%N := data_1k]> ∅))).

(** A relay packet: no bitstream format, three bytes of payload. *)
Definition relay_packet : MediaPacket :=
  mkPacket 0 MT_Video 1 [Byte.x00; Byte.x01; Byte.x02] 0 0 BF_Unknown PT_OVT.

(** A stream whose only track counts 600 ticks a second, stopped once with
    a last timestamp of 5000 µs. *)
Definition film_stopped : Stream :=
  run [CallAdjustTimestampByDelta 1 0 Examples.MAX_32BIT;
       CallAdjustTimestampByDelta 1 5000 Examples.MAX_32BIT;
       CallStop]
      (new_stream None {[ 1%N := film_600 ]}).

End MoreExamples.

(** * Properties *)

(** ** Arithmetic of [int64_t] *)

Section int64_facts.

Lemma wrap64_in_range z : in_range (wrap64 z).
Proof.
  unfold in_range, wrap64, INT64_MIN, INT64_MAX.
  pose proof (Z.mod_pos_bound (z + 2 ^ 63) (2 ^ 64) ltac:(lia)). lia.
Qed.

Lemma wrap64_exact z : in_range z -> wrap64 z = z.
Proof.
  unfold in_range, wrap64, INT64_MIN, INT64_MAX. intros Hz.
  rewrite Z.mod_small by lia. lia.
Qed.

Lemma add64_exact a b : in_range (a + b) -> add64 a b = a + b.
Proof. apply wrap64_exact. Qed.

Lemma sub64_exact a b : in_range (a - b) -> sub64 a b = a - b.
Proof. apply wrap64_exact. Qed.

Lemma mul64_exact a b : in_range (a * b) -> mul64 a b = a * b.
Proof. apply wrap64_exact. Qed.

(** Negation wraps to the negation, except at [INT64_MIN]. *)
Lemma wrap64_opp z : wrap64 z ≠ INT64_MIN -> wrap64 (- z) = - wrap64 z.
Proof.
  unfold wrap64, INT64_MIN. intros Hne.
  pose proof (Z.mod_pos_bound (z + 2 ^ 63) (2 ^ 64) ltac:(lia)) as Hb.
  pose proof (Z.div_mod (z + 2 ^ 63) (2 ^ 64) ltac:(lia)) as Hd.
  assert (Hpos : 0 < (z + 2 ^ 63) mod 2 ^ 64) by lia.
  replace (- z + 2 ^ 63)
    with ((2 ^ 64 - (z + 2 ^ 63) mod 2 ^ 64)
          + (- ((z + 2 ^ 63) / 2 ^ 64)) * 2 ^ 64) by lia.
  rewrite Z.mod_add by lia. rewrite Z.mod_small by lia. lia.
Qed.

(** With a non-negative threshold the two wraparound tests of
    [AdjustTimestampByBase] exclude each other. *)
Lemma sub64_antisym a b q :
  0 <= q -> sub64 a b > q -> ¬ (sub64 b a > q).
Proof.
  unfold sub64. intros Hq Hab Hba.
  assert (Hne : wrap64 (a - b) ≠ INT64_MIN) by (unfold INT64_MIN; lia).
  apply wrap64_opp in Hne. replace (- (a - b)) with (b - a) in Hne by lia.
  lia.
Qed.

Lemma div64_2_nonneg m : 0 <= m <= INT64_MAX -> 0 <= div64 m 2.
Proof.
  intros [Hm Hmax]. unfold div64.
  pose proof (Z.quot_pos m 2 Hm ltac:(lia)) as H0.
  assert (H1 : m ÷ 2 <= m) by (apply Z.quot_le_upper_bound; lia).
  rewrite wrap64_exact; [done|].
  unfold in_range, INT64_MIN, INT64_MAX in *. lia.
Qed.

End int64_facts.

(** ** Loops over a [std::map] *)

Section map_loops.

(** A loop that overwrites, for every entry of [m], the entry of the same
    key in [base]. *)
Lemma lookup_overwrite_loop (f : N -> Z -> Z) (m base : gmap N Z) (i : N) :
  map_fold (λ k v acc, <[k := f k v]> acc) base m !! i
  = match m !! i with
    | Some v => Some (f i v)
    | None => base !! i
    end.
Proof.
  revert i.
  apply (map_fold_weak_ind
           (λ r m', ∀ i, r !! i = match m' !! i with
                                  | Some v => Some (f i v)
                                  | None => base !! i
                                  end)).
  - intros i. by rewrite lookup_empty.
  - intros k v m' r Hk IH i.
    destruct (decide (k = i)) as [->|Hne].
    + by rewrite !lookup_insert_eq.
    + rewrite !lookup_insert_ne by done. apply IH.
Qed.

Lemma dom_overwrite_loop (f : N -> Z -> Z) (m base : gmap N Z) :
  dom (map_fold (λ k v acc, <[k := f k v]> acc) base m) = dom m ∪ dom base.
Proof.
  apply set_eq. intros i.
  rewrite elem_of_union, !elem_of_dom, lookup_overwrite_loop.
  destruct (m !! i) as [v|].
  - split; [intros _; left; eauto | eauto].
  - split; [by right | intros [[? ?]|?]; done].
Qed.

End map_loops.

(** The first loop of [ResetSourceStreamTimestamp] computes a lower bound of
    the last timestamps of the known tracks, and a value one of them has
    unless it is still the initial [INT64_MAX]. *)
Lemma min_last_timestamp_spec (s : Stream) :
  min_last_timestamp s <= INT64_MAX
  ∧ (∀ i v, _last_timestamp_map s !! i = Some v -> is_Some (GetTrack s i) ->
            min_last_timestamp s <= v)
  ∧ (min_last_timestamp s = INT64_MAX
     ∨ ∃ i, _last_timestamp_map s !! i = Some (min_last_timestamp s)
            ∧ is_Some (GetTrack s i)).
Proof.
  unfold min_last_timestamp.
  apply (map_fold_weak_ind
           (λ r m', r <= INT64_MAX
                    ∧ (∀ i v, m' !! i = Some v -> is_Some (GetTrack s i) -> r <= v)
                    ∧ (r = INT64_MAX
                       ∨ ∃ i, m' !! i = Some r ∧ is_Some (GetTrack s i)))).
  - split; [lia|]. split; [|by left].
    intros i v Hi. by rewrite lookup_empty in Hi.
  - intros k v m' r Hk (Hmax & Hlb & Hatt).
    destruct (GetTrack s k) as [track|] eqn:Hknown.
    + split; [lia|]. split.
      * intros i w Hi Hki. destruct (decide (k = i)) as [->|Hne].
        -- rewrite lookup_insert_eq in Hi. injection Hi as ->. lia.
        -- rewrite lookup_insert_ne in Hi by done.
           specialize (Hlb i w Hi Hki). lia.
      * destruct (Z.min_spec v r) as [[Hlt ->]|[Hge ->]].
        -- right. exists k. rewrite lookup_insert_eq, Hknown. eauto.
        -- destruct Hatt as [->|[i [Hi Hki]]]; [by left|].
           right. exists i. split; [|done].
           rewrite lookup_insert_ne; [done|]. intros ->. congruence.
    + split; [done|]. split.
      * intros i w Hi Hki. destruct (decide (k = i)) as [->|Hne].
        -- rewrite Hknown in Hki. by destruct Hki.
        -- rewrite lookup_insert_ne in Hi by done. eauto.
      * destruct Hatt as [->|[i [Hi Hki]]]; [by left|].
        right. exists i. split; [|done].
        rewrite lookup_insert_ne; [done|]. intros ->. congruence.
Qed.

(** When a known track has a last timestamp, the value computed is the
    minimum: one of these timestamps, and below all of them. *)
Lemma min_last_timestamp_attained (s : Stream) (i : N) (v : Z) :
  _last_timestamp_map s !! i = Some v -> is_Some (GetTrack s i) ->
  v <= INT64_MAX ->
  ∃ j, _last_timestamp_map s !! j = Some (min_last_timestamp s)
       ∧ is_Some (GetTrack s j).
Proof.
  intros Hi Hki Hv.
  destruct (min_last_timestamp_spec s) as (Hmax & Hlb & [Heq|Hatt]); [|done].
  exists i. split; [|done]. specialize (Hlb i v Hi Hki).
  rewrite Hi. f_equal. lia.
Qed.

(** ** The state machine *)

(** C9 — [SetState(STOPPED)] returns false and leaves the stream, hence its
    state, as it was, whatever the current state; [SetState] with any other
    state returns true and sets it. *)
Theorem SetState_guard (s : Stream) (state : State) :
  SetState STOPPED s = (false, s)
  ∧ (state ≠ STOPPED ->
     (SetState state s).1 = true ∧ _state (SetState state s).2 = state).
Proof.
  split; [reflexivity|].
  intros Hne. unfold SetState.
  rewrite bool_decide_eq_false_2 by done. done.
Qed.

Lemma SetState_guard_witness :
  SetState STOPPED Examples.playing = (false, Examples.playing)
  ∧ (SetState CONNECTED Examples.playing).1 = true
  ∧ _state (SetState CONNECTED Examples.playing).2 = CONNECTED.
Proof.
  destruct (SetState_guard Examples.playing CONNECTED) as [Hstopped Hother].
  split; [exact Hstopped|].
  apply Hother. discriminate.
Defined.

(** C8 — [Stop] on a stream already STOPPED returns true and leaves the
    whole stream unchanged; hence the second of two consecutive [Stop]
    calls returns true and changes nothing, from any stream. *)
Theorem Stop_idempotent (s : Stream) :
  (_state s = STOPPED -> Stop s = (true, s))
  ∧ (Stop s).1 = true
  ∧ Stop (Stop s).2 = (true, (Stop s).2).
Proof.
  assert (Hguard : ∀ s', _state s' = STOPPED -> Stop s' = (true, s')).
  { intros s' Hs'. unfold Stop. by rewrite bool_decide_eq_true_2. }
  split; [apply Hguard|]. split.
  - unfold Stop. by case_bool_decide.
  - apply Hguard. unfold Stop. by case_bool_decide.
Qed.

Lemma Stop_idempotent_witness :
  Stop (Stop Examples.playing).2 = (true, (Stop Examples.playing).2)
  ∧ Stop (set_state STOPPED Examples.playing) = (true, set_state STOPPED Examples.playing).
Proof.
  split.
  - exact (proj2 (proj2 (Stop_idempotent Examples.playing))).
  - exact (proj1 (Stop_idempotent (set_state STOPPED Examples.playing)) eq_refl).
Defined.

(** ** Frame dispatch *)

(** C10 — [SendDataFrame] with a null payload returns false at once: the
    stream is unchanged and no collaborator is reached (no log, no byte
    count, no dispatch), whatever the Track Directory and the application
    are. *)
Theorem SendDataFrame_null_frame (now : time_point) (timestamp : Z)
    (format : BitstreamFormat) (packet_type : PacketType) (s : Stream) :
  SendDataFrame now timestamp format packet_type None s = (false, s, []).
Proof. reflexivity. Qed.

(** ** Reconnect-gap bridging *)

Lemma UpdateReconnectTimeToBasetime_lookup now s i :
  _last_pkt_received_time s ≠ time_point_min ->
  _base_timestamp_map (UpdateReconnectTimeToBasetime now s) !! i
  = (λ t, add64 t (elapsed_microseconds now (_last_pkt_received_time s)))
      <$> _base_timestamp_map s !! i.
Proof.
  intros Hever. unfold UpdateReconnectTimeToBasetime.
  rewrite bool_decide_eq_true_2 by done. simpl.
  rewrite (lookup_overwrite_loop
             (λ _ t, add64 t (elapsed_microseconds now (_last_pkt_received_time s)))).
  by destruct (_base_timestamp_map s !! i).
Qed.

(** C6 — [Start] returns true.  When a packet was received before (the
    instant of the last packet is not [time_point::min()]), every entry of
    [_base_timestamp_map] grows by the microseconds elapsed from that instant
    to now, and no entry appears or disappears; when no packet was ever
    received the map is unchanged. *)
Theorem Start_bridges_reconnect_gap (now : time_point) (s : Stream) :
  (Start now s).1 = true
  ∧ (_last_pkt_received_time s ≠ time_point_min ->
     ∀ track_id,
       _base_timestamp_map (Start now s).2 !! track_id
       = (λ t, add64 t (elapsed_microseconds now (_last_pkt_received_time s)))
           <$> _base_timestamp_map s !! track_id)
  ∧ (_last_pkt_received_time s = time_point_min ->
     _base_timestamp_map (Start now s).2 = _base_timestamp_map s).
Proof.
  split; [reflexivity|]. split.
  - intros Hever track_id. by apply UpdateReconnectTimeToBasetime_lookup.
  - intros Hnever. simpl. unfold UpdateReconnectTimeToBasetime.
    by rewrite bool_decide_eq_false_2 by (intros Hne; by apply Hne).
Qed.

(** A reconnection 5,000,000 µs after the last packet moves both base
    offsets from 100 to 5,000,100; a stream that never received a packet
    keeps its (empty) map. *)
Lemma Start_bridges_reconnect_gap_witness :
  _base_timestamp_map (Start (1000000000000 + 5000000000) Examples.playing).2 !! 1%N
  = Some 5000100
  ∧ _base_timestamp_map (Start (1000000000000 + 5000000000) Examples.playing).2 !! 2%N
    = Some 5000100
  ∧ _base_timestamp_map (Start 42 Examples.fresh).2 = ∅.
Proof.
  pose proof (Start_bridges_reconnect_gap (1000000000000 + 5000000000) Examples.playing)
    as (_ & Hever & _).
  pose proof (Start_bridges_reconnect_gap 42 Examples.fresh) as (_ & _ & Hnever).
  split; [|split].
  - rewrite Hever by (vm_compute; discriminate). reflexivity.
  - rewrite Hever by (vm_compute; discriminate). reflexivity.
  - rewrite Hnever by reflexivity. reflexivity.
Defined.

(** ** End-of-session rebase *)

Lemma ResetSourceStreamTimestamp_base s i :
  _base_timestamp_map (ResetSourceStreamTimestamp s) !! i
  = match _last_timestamp_map s !! i with
    | Some _ => Some (min_last_timestamp s)
    | None => _base_timestamp_map s !! i
    end.
Proof.
  unfold ResetSourceStreamTimestamp. simpl.
  apply (lookup_overwrite_loop (λ _ _, min_last_timestamp s)).
Qed.

Lemma ResetSourceStreamTimestamp_start s :
  _start_timestamp (ResetSourceStreamTimestamp s) = -1.
Proof. reflexivity. Qed.

(** C4 (as the code has it) — [Stop] on a stream that is not STOPPED
    returns true, moves to STOPPED and rebases: the value [m] it computes is
    the minimum of the last timestamps of the tracks that have one (a lower
    bound of them all, and the timestamp of one of them); the ids with an
    entry in [_last_timestamp_map], and only these, get [m] as their base
    timestamp, every other entry of [_base_timestamp_map] is kept as it was
    (so a track that has no last timestamp gets no base entry);
    [_start_timestamp] is -1 again and [_source_timestamp_map] is empty. *)
Theorem Stop_rebases_to_minimum (s : Stream) :
  _state s ≠ STOPPED ->
  let s' := (Stop s).2 in
  let m := min_last_timestamp s in
  (Stop s).1 = true
  ∧ _state s' = STOPPED
  ∧ (∀ track_id v,
       _last_timestamp_map s !! track_id = Some v ->
       is_Some (GetTrack s track_id) -> m <= v)
  ∧ (∀ track_id v,
       _last_timestamp_map s !! track_id = Some v ->
       is_Some (GetTrack s track_id) -> v <= INT64_MAX ->
       ∃ least, _last_timestamp_map s !! least = Some m
                ∧ is_Some (GetTrack s least))
  ∧ (∀ track_id,
       is_Some (_last_timestamp_map s !! track_id) ->
       _base_timestamp_map s' !! track_id = Some m)
  ∧ (∀ track_id,
       _last_timestamp_map s !! track_id = None ->
       _base_timestamp_map s' !! track_id = _base_timestamp_map s !! track_id)
  ∧ _start_timestamp s' = -1
  ∧ _source_timestamp_map s' = ∅.
Proof.
  intros Hstate s' m. subst s' m. unfold Stop.
  rewrite bool_decide_eq_false_2 by done. simpl.
  destruct (min_last_timestamp_spec s) as (_ & Hlb & _).
  repeat split.
  - exact Hlb.
  - intros track_id v. apply min_last_timestamp_attained.
  - intros track_id [v Hv].
    pose proof (ResetSourceStreamTimestamp_base s track_id) as Hbase.
    rewrite Hv in Hbase. exact Hbase.
  - intros track_id Hnone.
    pose proof (ResetSourceStreamTimestamp_base s track_id) as Hbase.
    rewrite Hnone in Hbase. exact Hbase.
Qed.

(** The playing example: last timestamps 5000 (video) and 3000 (audio), so
    both bases become 3000. *)
Lemma Stop_rebases_to_minimum_witness :
  min_last_timestamp Examples.playing = 3000
  ∧ _base_timestamp_map (Stop Examples.playing).2 !! 1%N = Some 3000
  ∧ _base_timestamp_map (Stop Examples.playing).2 !! 2%N = Some 3000
  ∧ _start_timestamp (Stop Examples.playing).2 = -1
  ∧ _source_timestamp_map (Stop Examples.playing).2 = ∅.
Proof.
  assert (Hstate : _state Examples.playing ≠ STOPPED) by discriminate.
  pose proof (Stop_rebases_to_minimum Examples.playing Hstate)
    as (_ & _ & _ & _ & Hbase & _ & Hstart & Hsource).
  assert (Hmin : min_last_timestamp Examples.playing = 3000) by (vm_compute; reflexivity).
  split; [exact Hmin|].
  rewrite <- Hmin.
  split; [apply Hbase; vm_compute; eauto|].
  split; [apply Hbase; vm_compute; eauto|].
  split; [exact Hstart | exact Hsource].
Defined.

(** C4 (as stated) fails: the second loop of the reset runs over
    [_last_timestamp_map], not over the tracks.  On a new stream with the
    video track 1 and the audio track 2, after two packets of the video
    track only, [Stop] computes the minimum 1000011 µs and gives it to
    track 1; track 2, a track of the directory, has no base entry
    afterwards. *)
Lemma Stop_rebases_to_minimum_counterexample :
  let s := run [CallAdjustTimestampByBase 1 1000 1000 Examples.MAX_33BIT;
                CallAdjustTimestampByBase 1 91000 91000 Examples.MAX_33BIT]
               Examples.fresh in
  _state s ≠ STOPPED
  ∧ GetTrack s 2 = Some Examples.audio_48k
  ∧ min_last_timestamp s = 1000011
  ∧ _base_timestamp_map (Stop s).2 !! 1%N = Some 1000011
  ∧ _base_timestamp_map (Stop s).2 !! 2%N ≠ Some (min_last_timestamp s).
Proof. vm_compute. repeat split; discriminate. Qed.

(** ** Delta accumulation *)

Lemma GetDeltaTimestamp_baseline track_id timestamp max_timestamp s :
  _source_timestamp_map (GetDeltaTimestamp track_id timestamp max_timestamp s).2
  = <[track_id := timestamp]> (_source_timestamp_map s).
Proof.
  unfold GetDeltaTimestamp.
  by destruct (_source_timestamp_map s !! track_id).
Qed.

Lemma GetDeltaTimestamp_frame track_id timestamp max_timestamp s :
  (GetDeltaTimestamp track_id timestamp max_timestamp s).2
  = set_source_timestamp_map (<[track_id := timestamp]> (_source_timestamp_map s)) s.
Proof.
  unfold GetDeltaTimestamp.
  by destruct (_source_timestamp_map s !! track_id).
Qed.

Lemma AdjustTimestampByDelta_unfold track_id timestamp max_timestamp s :
  AdjustTimestampByDelta track_id timestamp max_timestamp s
  = let delta := (GetDeltaTimestamp track_id timestamp max_timestamp s).1 in
    let total := add64 (default 0 (_last_timestamp_map s !! track_id)) delta in
    (total,
     set_last_timestamp_map (<[track_id := total]> (_last_timestamp_map s))
       (set_source_timestamp_map
          (<[track_id := timestamp]> (_source_timestamp_map s)) s)).
Proof.
  unfold AdjustTimestampByDelta.
  pose proof (GetDeltaTimestamp_frame track_id timestamp max_timestamp s) as Hframe.
  destruct (GetDeltaTimestamp track_id timestamp max_timestamp s) as [delta s1].
  simpl in *. subst s1. simpl.
  by destruct (_last_timestamp_map s !! track_id).
Qed.

(** C5 — the delta helper: 0 on the first observation of a track;
    afterwards, below the baseline, [(max_timestamp - baseline) + timestamp]
    when the baseline exceeds 99.99 % of [max_timestamp] and 0 otherwise;
    at or above the baseline, [timestamp - baseline]; the baseline becomes
    the new timestamp in every case.  [AdjustTimestampByDelta] adds the delta
    to the running total of the track (0 when absent), stores the sum in
    [_last_timestamp_map] and returns it.  Sums and differences are those of
    [int64_t]. *)
Theorem delta_accumulation (track_id : N) (timestamp max_timestamp : Z) (s : Stream) :
  let delta := (GetDeltaTimestamp track_id timestamp max_timestamp s).1 in
  let s1 := (GetDeltaTimestamp track_id timestamp max_timestamp s).2 in
  let total := (AdjustTimestampByDelta track_id timestamp max_timestamp s).1 in
  let s2 := (AdjustTimestampByDelta track_id timestamp max_timestamp s).2 in
  (_source_timestamp_map s !! track_id = None -> delta = 0)
  ∧ (∀ baseline,
       _source_timestamp_map s !! track_id = Some baseline ->
       (timestamp < baseline ->
        exceeds_99_99_percent baseline max_timestamp = true ->
        delta = add64 (sub64 max_timestamp baseline) timestamp)
       ∧ (timestamp < baseline ->
          exceeds_99_99_percent baseline max_timestamp = false ->
          delta = 0)
       ∧ (baseline <= timestamp -> delta = sub64 timestamp baseline))
  ∧ _source_timestamp_map s1 !! track_id = Some timestamp
  ∧ total = add64 (default 0 (_last_timestamp_map s !! track_id)) delta
  ∧ _last_timestamp_map s2 !! track_id = Some total
  ∧ _source_timestamp_map s2 !! track_id = Some timestamp.
Proof.
  intros delta s1 total s2. subst delta s1 total s2.
  rewrite AdjustTimestampByDelta_unfold, GetDeltaTimestamp_baseline. simpl.
  rewrite !lookup_insert_eq.
  split; [|split; [|done]].
  - intros Hfirst. unfold GetDeltaTimestamp. by rewrite Hfirst.
  - intros baseline Hbase. unfold GetDeltaTimestamp. rewrite Hbase. simpl.
    split; [|split].
    + intros Hlt Hwrap. by rewrite bool_decide_eq_true_2, Hwrap by done.
    + intros Hlt Hrestart. by rewrite bool_decide_eq_true_2, Hrestart by done.
    + intros Hge. rewrite bool_decide_eq_false_2; [done|lia].
Qed.

(** The two examples of the specification, with [max_timestamp] =
    4294967295: a drop from 1000 to 500 is a source restart, a drop from
    4294967290 to 10 a wraparound of 15 ticks; a rise from 1000 to 1500 is a
    delta of 500 added to the running total. *)
Lemma delta_accumulation_witness :
  (GetDeltaTimestamp 1 1000 Examples.MAX_32BIT Examples.fresh).1 = 0
  ∧ (GetDeltaTimestamp 1 500 Examples.MAX_32BIT Examples.delta_at_1000).1 = 0
  ∧ (GetDeltaTimestamp 1 10 Examples.MAX_32BIT Examples.delta_near_wrap).1
    = add64 (sub64 Examples.MAX_32BIT 4294967290) 10
  ∧ (GetDeltaTimestamp 1 1500 Examples.MAX_32BIT Examples.delta_at_1000).1
    = sub64 1500 1000
  ∧ _source_timestamp_map
      (GetDeltaTimestamp 1 500 Examples.MAX_32BIT Examples.delta_at_1000).2 !! 1%N
    = Some 500.
Proof.
  pose proof (delta_accumulation 1 1000 Examples.MAX_32BIT Examples.fresh)
    as (Hfirst & _).
  pose proof (delta_accumulation 1 500 Examples.MAX_32BIT Examples.delta_at_1000)
    as (_ & Hrestart & Hbaseline & _).
  pose proof (delta_accumulation 1 10 Examples.MAX_32BIT Examples.delta_near_wrap)
    as (_ & Hwrap & _).
  pose proof (delta_accumulation 1 1500 Examples.MAX_32BIT Examples.delta_at_1000)
    as (_ & Hrise & _).
  split; [apply Hfirst; reflexivity|].
  split; [apply (Hrestart 1000); [reflexivity | lia | vm_compute; reflexivity]|].
  split; [apply (Hwrap 4294967290); [reflexivity | lia | vm_compute; reflexivity]|].
  split; [apply (Hrise 1000); [reflexivity | lia]|].
  exact Hbaseline.
Defined.

(** ** Unknown tracks *)

Lemma AdjustTimestampByBase_unknown_track track_id pts dts max_timestamp s :
  GetTrack s track_id = None ->
  AdjustTimestampByBase track_id pts dts max_timestamp s
  = (mkAdjusted (-1) pts dts, s).
Proof. intros Hnone. unfold AdjustTimestampByBase. by rewrite Hnone. Qed.

Lemma GetBaseTimestamp_unknown_track track_id s :
  GetTrack s track_id = None -> GetBaseTimestamp track_id s = (-1, s).
Proof. intros Hnone. unfold GetBaseTimestamp. by rewrite Hnone. Qed.

Lemma GetBaseTimestamp_read_only track_id s :
  (GetBaseTimestamp track_id s).2 = s.
Proof. unfold GetBaseTimestamp. by destruct (GetTrack s track_id). Qed.

(** The delta strategy does not consult the Track Directory: its outcome is
    the same whatever the directory holds. *)
Lemma AdjustTimestampByDelta_ignores_tracks track_id timestamp max_timestamp s :
  (AdjustTimestampByDelta track_id timestamp max_timestamp s).1
  = add64 (default 0 (_last_timestamp_map s !! track_id))
          (GetDeltaTimestamp track_id timestamp max_timestamp s).1
  ∧ _source_timestamp_map
      (AdjustTimestampByDelta track_id timestamp max_timestamp s).2 !! track_id
    = Some timestamp.
Proof.
  rewrite AdjustTimestampByDelta_unfold. simpl.
  by rewrite lookup_insert_eq.
Qed.

(** C3 — the rebase strategy and the base-timestamp query answer -1 on an
    unknown track and leave the stream as it was
    ([AdjustTimestampByBase_unknown_track], [GetBaseTimestamp_unknown_track]).
    [AdjustTimestampByDelta] does not: on a new stream whose tracks are 1
    and 2, the call for track 7 returns 0, not -1, and creates the entries
    of track 7 in [_source_timestamp_map] and [_last_timestamp_map]. *)
Theorem AdjustTimestampByDelta_unknown_track :
  let call := AdjustTimestampByDelta 7 1000 Examples.MAX_32BIT Examples.fresh in
  GetTrack Examples.fresh 7 = None
  ∧ (AdjustTimestampByBase 7 1000 1000 Examples.MAX_32BIT Examples.fresh).1
    = mkAdjusted (-1) 1000 1000
  ∧ (GetBaseTimestamp 7 Examples.fresh).1 = -1
  ∧ call.1 = 0
  ∧ _source_timestamp_map Examples.fresh !! 7%N = None
  ∧ _source_timestamp_map call.2 !! 7%N = Some 1000
  ∧ _last_timestamp_map Examples.fresh !! 7%N = None
  ∧ _last_timestamp_map call.2 !! 7%N = Some 0.
Proof. vm_compute. repeat split. Qed.

(** ** Dispatch and the stream *)

(** A dispatch changes nothing in the stream but the instant of the last
    packet. *)
Lemma SendFrame_state now packet s :
  (SendFrame now packet s).1.2 = s
  ∨ (SendFrame now packet s).1.2 = set_last_pkt_received_time now s.
Proof.
  unfold SendFrame. destruct (_application s) as [application|]; [|by left].
  destruct (bool_decide (pkt_packet_type packet = PT_Unknown)); [by left|].
  destruct (_ && _); [by left | by right].
Qed.

Lemma SendDataFrame_state now timestamp format packet_type frame s :
  (SendDataFrame now timestamp format packet_type frame s).1.2 = s
  ∨ (SendDataFrame now timestamp format packet_type frame s).1.2
    = set_last_pkt_received_time now s.
Proof.
  unfold SendDataFrame. destruct frame as [data|]; [|by left].
  destruct (GetFirstTrackByType s MT_Data) as [data_track|]; [|by left].
  apply SendFrame_state.
Qed.

(** ** The absolute rebase strategy *)

(** Unfolds a call on a known track and names the case of the start
    timestamp. *)
Ltac adjust_known Htrack :=
  unfold AdjustTimestampByBase, rebased, start_timestamp_for;
  rewrite Htrack.

Lemma AdjustTimestampByBase_start track_id pts dts max_timestamp s track :
  GetTrack s track_id = Some track ->
  _start_timestamp (AdjustTimestampByBase track_id pts dts max_timestamp s).2
  = start_timestamp_for track dts s.
Proof.
  intros Htrack. adjust_known Htrack.
  repeat (case_bool_decide || case_match); simplify_eq/=; done.
Qed.

(** The first call of an epoch on a known track captures the start
    timestamp: the DTS in microseconds. *)
Lemma AdjustTimestampByBase_captures_start track_id pts dts max_timestamp s track :
  GetTrack s track_id = Some track ->
  _start_timestamp s = -1 ->
  _start_timestamp (AdjustTimestampByBase track_id pts dts max_timestamp s).2
  = scale dts (expr_tb2us track).
Proof.
  intros Htrack Hunset.
  rewrite (AdjustTimestampByBase_start _ _ _ _ _ track Htrack).
  unfold start_timestamp_for. by rewrite bool_decide_eq_true_2.
Qed.

(** A call that finds the start timestamp set keeps it. *)
Lemma AdjustTimestampByBase_keeps_start track_id pts dts max_timestamp s :
  _start_timestamp s ≠ -1 ->
  _start_timestamp (AdjustTimestampByBase track_id pts dts max_timestamp s).2
  = _start_timestamp s.
Proof.
  intros Hset. destruct (GetTrack s track_id) as [track|] eqn:Htrack.
  - rewrite (AdjustTimestampByBase_start _ _ _ _ _ track Htrack).
    unfold start_timestamp_for. by rewrite bool_decide_eq_false_2.
  - by rewrite AdjustTimestampByBase_unknown_track.
Qed.

(** Within an epoch no call changes a start timestamp that is set. *)
Lemma exec_keeps_start c s :
  _start_timestamp s ≠ -1 -> ends_epoch c s = false ->
  _start_timestamp (exec c s) = _start_timestamp s.
Proof.
  intros Hset Hepoch. destruct c; simpl in *.
  - unfold UpdateReconnectTimeToBasetime. by case_bool_decide.
  - apply bool_decide_eq_false, dec_stable in Hepoch.
    unfold Stop. by rewrite bool_decide_eq_true_2.
  - done.
  - unfold SetState. by case_bool_decide.
  - by apply AdjustTimestampByBase_keeps_start.
  - by rewrite GetBaseTimestamp_read_only.
  - by rewrite AdjustTimestampByDelta_unfold.
  - by destruct (SendFrame_state now packet s) as [-> | ->].
  - by destruct (SendDataFrame_state now timestamp format packet_type frame s)
      as [-> | ->].
Qed.

(** X2 — once the start timestamp holds a value other than -1, no sequence
    of calls that stays within the epoch (no [Stop] that resets) changes
    it. *)
Lemma start_timestamp_stable_in_epoch calls s :
  _start_timestamp s ≠ -1 -> within_epoch calls s = true ->
  _start_timestamp (run calls s) = _start_timestamp s.
Proof.
  revert s. induction calls as [|c calls IH]; intros s Hset Hepoch; [done|].
  simpl in Hepoch. apply andb_true_iff in Hepoch as [Hc Hrest].
  apply negb_true_iff in Hc.
  pose proof (exec_keeps_start c s Hset Hc) as Hkeep.
  change (run (c :: calls) s) with (run calls (exec c s)).
  rewrite IH; [done | by rewrite Hkeep | done].
Qed.

(** C7 — a capture whose value is the sentinel does not end the unset
    state.  The track counts microseconds; the first call of the epoch has
    DTS -1, which is -1 µs: [_start_timestamp] is assigned -1.  The second
    call of the same epoch, with DTS 5000, assigns it again, to 5000, and
    returns 0 for the packet 5001 ticks after the first. *)
Theorem StartTimestamp_captured_twice :
  let calls := [CallAdjustTimestampByBase 1 (-1) (-1) Examples.MAX_33BIT;
                CallAdjustTimestampByBase 1 5000 5000 Examples.MAX_33BIT] in
  let first := AdjustTimestampByBase 1 (-1) (-1) Examples.MAX_33BIT Examples.fresh_us in
  let second := AdjustTimestampByBase 1 5000 5000 Examples.MAX_33BIT first.2 in
  within_epoch calls Examples.fresh_us = true
  ∧ _start_timestamp Examples.fresh_us = -1
  ∧ scale (-1) (expr_tb2us Examples.video_us) = -1
  ∧ adj_ret first.1 = 0
  ∧ _start_timestamp first.2 = -1
  ∧ _start_timestamp second.2 = 5000
  ∧ adj_ret second.1 = 0.
Proof. vm_compute. repeat split. Qed.

(** C2 (as the code has it) — on a known track with a last raw PTS, a
    non-negative [max_timestamp] and a raw PTS more than [max_timestamp / 2]
    above the last one, the call keeps the PTS wraparound counters and the
    last raw PTS values as they were, and the offset it adds to the rebased
    PTS is the stored counter less one, times [max_timestamp]; with no stored
    counter it adds nothing. *)
Theorem reverse_wraparound_pts (track_id : N) (pts dts max_timestamp : Z)
    (s : Stream) (track : MediaTrack) (last_origin_pts : Z) :
  GetTrack s track_id = Some track ->
  _last_origin_ts_map0 s !! track_id = Some last_origin_pts ->
  0 <= max_timestamp <= INT64_MAX ->
  sub64 pts last_origin_pts > div64 max_timestamp 2 ->
  let call := AdjustTimestampByBase track_id pts dts max_timestamp s in
  _wraparound_count_map0 call.2 = _wraparound_count_map0 s
  ∧ _last_origin_ts_map0 call.2 = _last_origin_ts_map0 s
  ∧ adj_ret call.1
    = match _wraparound_count_map0 s !! track_id with
      | Some count =>
          add64 (rebased track track_id pts dts s)
                (mul64 (add64 count (-1)) max_timestamp)
      | None => rebased track track_id pts dts s
      end.
Proof.
  intros Htrack Hlast Hmax Hreverse call. subst call.
  pose proof (div64_2_nonneg max_timestamp Hmax) as Hhalf.
  pose proof (sub64_antisym pts last_origin_pts _ Hhalf Hreverse) as Hforward.
  adjust_known Htrack.
  case_bool_decide; simpl; rewrite Hlast;
    rewrite (bool_decide_eq_false_2 _ Hforward);
    rewrite (bool_decide_eq_true_2 _ Hreverse); simpl;
    repeat case_match; simplify_eq/=; done.
Qed.

(** After the forward wraparound of [Examples.wrapped_once] (last raw PTS 3,
    counter 1), the late frame with raw PTS [max - 5] gets the offset
    [(1 - 1) * max]: its adjusted PTS is 6, five ticks before the 14 of the
    frame with raw PTS 3. *)
Lemma reverse_wraparound_pts_witness :
  let call :=
    AdjustTimestampByBase 1 (Examples.MAX_33BIT - 5) 4 Examples.MAX_33BIT
      Examples.wrapped_once in
  _wraparound_count_map0 call.2 !! 1%N = Some 1
  ∧ _last_origin_ts_map0 call.2 !! 1%N = Some 3
  ∧ adj_ret call.1 = 6.
Proof.
  assert (Htrack : GetTrack Examples.wrapped_once 1 = Some Examples.video_90k)
    by reflexivity.
  assert (Hlast : _last_origin_ts_map0 Examples.wrapped_once !! 1%N = Some 3)
    by (vm_compute; reflexivity).
  assert (Hmax : 0 <= Examples.MAX_33BIT <= INT64_MAX)
    by (vm_compute; split; discriminate).
  assert (Hreverse : sub64 (Examples.MAX_33BIT - 5) 3 > div64 Examples.MAX_33BIT 2)
    by (vm_compute; reflexivity).
  pose proof (reverse_wraparound_pts 1 (Examples.MAX_33BIT - 5) 4 Examples.MAX_33BIT
                Examples.wrapped_once Examples.video_90k 3 Htrack Hlast Hmax Hreverse)
    as (Hcount & Horigin & Hret).
  simpl. rewrite Hcount, Horigin, Hret.
  vm_compute. repeat split.
Defined.

(** C2 (as stated) fails: in the same call the stored PTS counter is 1, and
    the adjusted PTS is not the rebased PTS plus [1 * max_timestamp]. *)
Lemma reverse_wraparound_pts_counterexample :
  let s := Examples.wrapped_once in
  let pts := Examples.MAX_33BIT - 5 in
  let call := AdjustTimestampByBase 1 pts 4 Examples.MAX_33BIT s in
  GetTrack s 1 = Some Examples.video_90k
  ∧ _last_origin_ts_map0 s !! 1%N = Some 3
  ∧ sub64 pts 3 > div64 Examples.MAX_33BIT 2
  ∧ _wraparound_count_map0 s !! 1%N = Some 1
  ∧ adj_ret call.1
    ≠ add64 (rebased Examples.video_90k 1 pts 4 s) (mul64 1 Examples.MAX_33BIT).
Proof. vm_compute. repeat split. discriminate. Qed.

(** The conversions of a 90 kHz track on the values of the example: 1000
    ticks are 11111 µs (truncated), and 11111 µs are 999 ticks. *)
Lemma scale_90k_1000_to_us :
  scale 1000 (Double.mul (GetExpr (mkTimebase 1 90000)) (Double.of_int64 1000000))
  = 11111.
Proof. vm_compute. reflexivity. Qed.

Lemma scale_90k_11111_to_tb :
  scale 11111 (Double.div (GetTimescale (mkTimebase 1 90000)) (Double.of_int64 1000000))
  = 999.
Proof. vm_compute. reflexivity. Qed.

Lemma scale_90k_0_to_tb :
  scale 0 (Double.div (GetTimescale (mkTimebase 1 90000)) (Double.of_int64 1000000))
  = 0.
Proof. vm_compute. reflexivity. Qed.

(** C1 (as the code has it) — a 90 kHz track, base offset 0 (or none), no
    start timestamp and no wraparound history for the track, a non-negative
    [max_timestamp].  The first call, PTS = DTS = 1000, captures the start
    timestamp 11111 µs, which is 999 ticks, and returns
    [0 + (1000 - 999) = 1]; the second call, PTS = DTS = 2000, returns
    [0 + (2000 - 999) = 1001]. *)
Theorem linear_rebase_90k (track_id : N) (max_timestamp : Z) (s : Stream)
    (track : MediaTrack) :
  GetTrack s track_id = Some track ->
  track_timebase track = mkTimebase 1 90000 ->
  _start_timestamp s = -1 ->
  default 0 (_base_timestamp_map s !! track_id) = 0 ->
  _last_origin_ts_map0 s !! track_id = None ->
  _last_origin_ts_map1 s !! track_id = None ->
  _wraparound_count_map0 s !! track_id = None ->
  _wraparound_count_map1 s !! track_id = None ->
  0 <= max_timestamp <= INT64_MAX ->
  let first := AdjustTimestampByBase track_id 1000 1000 max_timestamp s in
  let second := AdjustTimestampByBase track_id 2000 2000 max_timestamp first.2 in
  _start_timestamp first.2 = 11111
  ∧ first.1 = mkAdjusted 1 1 1
  ∧ _start_timestamp second.2 = 11111
  ∧ second.1 = mkAdjusted 1001 1001 1001.
Proof.
  intros Htrack Htb Hstart Hbase Hpts Hdts Hcount0 Hcount1 Hmax first second.
  pose proof (div64_2_nonneg max_timestamp Hmax) as Hhalf.
  assert (Hfirst :
    first = (mkAdjusted 1 1 1,
             set_last_origin_ts_map1 (<[track_id := 1000]> (_last_origin_ts_map1 s))
               (set_last_origin_ts_map0 (<[track_id := 1000]> (_last_origin_ts_map0 s))
                  (set_last_timestamp_map
                     (<[track_id := scale 1 (expr_tb2us track)]> (_last_timestamp_map s))
                     (set_start_timestamp 11111 s))))).
  { subst first second. unfold AdjustTimestampByBase. rewrite Htrack.
    rewrite bool_decide_eq_true_2 by done.
    unfold expr_tb2us, expr_us2tb. rewrite Htb. simpl.
    rewrite scale_90k_1000_to_us, scale_90k_11111_to_tb.
    rewrite Hpts. simpl. rewrite Hcount0, Hdts. simpl. rewrite Hcount1. simpl.
    destruct (_base_timestamp_map s !! track_id) as [base|] eqn:Hb;
      simpl in Hbase; [subst base; rewrite scale_90k_0_to_tb|]; reflexivity. }
  subst second. rewrite Hfirst. clear first Hfirst.
  split; [done|]. split; [done|]. simpl.
  remember (set_last_origin_ts_map1 _ _) as s1 eqn:Hs1.
  assert (Htrack1 : GetTrack s1 track_id = Some track) by (by subst s1).
  assert (Hstart1 : _start_timestamp s1 = 11111) by (by subst s1).
  assert (Hbase1 : _base_timestamp_map s1 = _base_timestamp_map s) by (by subst s1).
  assert (Hpts1 : _last_origin_ts_map0 s1 !! track_id = Some 1000)
    by (subst s1; apply lookup_insert_eq).
  assert (Hdts1 : _last_origin_ts_map1 s1 !! track_id = Some 1000)
    by (subst s1; apply lookup_insert_eq).
  assert (Hcount01 : _wraparound_count_map0 s1 !! track_id = None) by (by subst s1).
  assert (Hcount11 : _wraparound_count_map1 s1 !! track_id = None) by (by subst s1).
  clear Hs1.
  assert (Hforward : ¬ (sub64 1000 2000 > div64 max_timestamp 2)).
  { change (sub64 1000 2000) with (-1000). lia. }
  unfold AdjustTimestampByBase. rewrite Htrack1.
  rewrite bool_decide_eq_false_2 by (rewrite Hstart1; lia).
  rewrite Hstart1, Hbase1, Hpts1. unfold expr_tb2us, expr_us2tb. rewrite Htb.
  rewrite scale_90k_11111_to_tb, (bool_decide_eq_false_2 _ Hforward).
  assert (Hbase_tb :
    match _base_timestamp_map s !! track_id with
    | Some base =>
        scale base (Double.div (GetTimescale (mkTimebase 1 90000))
                               (Double.of_int64 1000000))
    | None => 0
    end = 0).
  { destruct (_base_timestamp_map s !! track_id) as [base|]; [|done].
    simpl in Hbase. subst base. apply scale_90k_0_to_tb. }
  rewrite Hbase_tb.
  case_bool_decide; simpl; rewrite Hcount01, Hdts1, (bool_decide_eq_false_2 _ Hforward);
    simpl; rewrite Hcount11; simpl; rewrite Hstart1; done.
Qed.

(** The new stream of the examples, track 1, [max_timestamp] = 2^33 - 1. *)
Lemma linear_rebase_90k_witness :
  let first := AdjustTimestampByBase 1 1000 1000 Examples.MAX_33BIT Examples.fresh in
  let second := AdjustTimestampByBase 1 2000 2000 Examples.MAX_33BIT first.2 in
  _start_timestamp first.2 = 11111
  ∧ first.1 = mkAdjusted 1 1 1
  ∧ _start_timestamp second.2 = 11111
  ∧ second.1 = mkAdjusted 1001 1001 1001.
Proof.
  apply (linear_rebase_90k 1 Examples.MAX_33BIT Examples.fresh Examples.video_90k);
    try reflexivity.
  vm_compute. split; discriminate.
Defined.

(** C1 (as stated) fails: on that stream the first call returns 1, not the
    input PTS 1000, and the second returns 1001, not 2000. *)
Lemma linear_rebase_90k_counterexample :
  let first := AdjustTimestampByBase 1 1000 1000 Examples.MAX_33BIT Examples.fresh in
  let second := AdjustTimestampByBase 1 2000 2000 Examples.MAX_33BIT first.2 in
  track_timebase Examples.video_90k = mkTimebase 1 90000
  ∧ GetTrack Examples.fresh 1 = Some Examples.video_90k
  ∧ _base_timestamp_map Examples.fresh !! 1%N = None
  ∧ _start_timestamp Examples.fresh = -1
  ∧ adj_ret first.1 ≠ 1000
  ∧ adj_ret second.1 ≠ 2000.
Proof. vm_compute. repeat split; discriminate. Qed.

(** ** Reachable streams *)

Lemma AdjustTimestampByBase_maps track_id pts dts max_timestamp s :
  let s' := (AdjustTimestampByBase track_id pts dts max_timestamp s).2 in
  _base_timestamp_map s' = _base_timestamp_map s
  ∧ dom (_last_timestamp_map s) ⊆ dom (_last_timestamp_map s').
Proof.
  unfold AdjustTimestampByBase.
  repeat (case_bool_decide || case_match); simplify_eq/=;
    (split; [done|]); try done; rewrite dom_insert; set_solver.
Qed.

Lemma exec_base_within_last c s :
  base_within_last s -> base_within_last (exec c s).
Proof.
  unfold base_within_last. intros Hinv. destruct c; simpl.
  - unfold UpdateReconnectTimeToBasetime. case_bool_decide; [|done].
    simpl. rewrite dom_overwrite_loop. by apply union_least.
  - unfold Stop. case_bool_decide; [done|].
    unfold ResetSourceStreamTimestamp. simpl.
    rewrite dom_overwrite_loop. by apply union_least.
  - done.
  - unfold SetState. by case_bool_decide.
  - destruct (AdjustTimestampByBase_maps track_id pts dts max_timestamp s)
      as [Hbase Hlast].
    rewrite Hbase. set_solver.
  - by rewrite GetBaseTimestamp_read_only.
  - rewrite AdjustTimestampByDelta_unfold. simpl. rewrite dom_insert. set_solver.
  - by destruct (SendFrame_state now packet s) as [-> | ->].
  - by destruct (SendDataFrame_state now timestamp format packet_type frame s)
      as [-> | ->].
Qed.

Lemma run_base_within_last calls s :
  base_within_last s -> base_within_last (run calls s).
Proof.
  revert s. induction calls as [|c calls IH]; intros s Hinv; [done|].
  change (run (c :: calls) s) with (run calls (exec c s)).
  by apply IH, exec_base_within_last.
Qed.

Lemma reachable_base_within_last s : reachable s -> base_within_last s.
Proof.
  intros (app & tracks & calls & ->). apply run_base_within_last.
  unfold base_within_last, new_stream. simpl. set_solver.
Qed.

(** X1 — on a reachable stream the reset of [Stop] leaves no base timestamp
    other than the value it computed: every entry of [_base_timestamp_map],
    for known and unknown ids alike, is that minimum. *)
Lemma Stop_rebases_every_entry s track_id v :
  reachable s -> _state s ≠ STOPPED ->
  _base_timestamp_map (Stop s).2 !! track_id = Some v ->
  v = min_last_timestamp s.
Proof.
  intros Hreach Hstate Hv. unfold Stop in Hv.
  rewrite bool_decide_eq_false_2 in Hv by done. simpl in Hv.
  pose proof (ResetSourceStreamTimestamp_base s track_id) as Hbase.
  unfold ResetSourceStreamTimestamp in Hbase. simpl in Hbase.
  rewrite Hbase in Hv.
  destruct (_last_timestamp_map s !! track_id) as [w|] eqn:Hlast; [congruence|].
  apply reachable_base_within_last in Hreach.
  assert (Hin : track_id ∈ dom (_base_timestamp_map s)) by (apply elem_of_dom; eauto).
  apply Hreach, elem_of_dom in Hin. rewrite Hlast in Hin. by destruct Hin.
Qed.

(** ** The 99.99 % threshold on the 32-bit examples *)

(** With [max_timestamp] = 4294967295 the threshold is 4294537798.27...: the
    baselines 1000 and 4294537798 are below it, 4294537799 and 4294967290
    above. *)
Lemma exceeds_99_99_percent_32bit :
  exceeds_99_99_percent 1000 Examples.MAX_32BIT = false
  ∧ exceeds_99_99_percent 4294537798 Examples.MAX_32BIT = false
  ∧ exceeds_99_99_percent 4294537799 Examples.MAX_32BIT = true
  ∧ exceeds_99_99_percent 4294967290 Examples.MAX_32BIT = true.
Proof. vm_compute. repeat split. Qed.


(** * Further properties *)

(** ** Arithmetic modulo 2^64 *)

Lemma wrap64_decompose z : ∃ k, wrap64 z = z + k * 2 ^ 64.
Proof.
  exists (- ((z + 2 ^ 63) / 2 ^ 64)). unfold wrap64.
  pose proof (Z.div_mod (z + 2 ^ 63) (2 ^ 64) ltac:(lia)). lia.
Qed.

Lemma wrap64_shift z k : wrap64 (z + k * 2 ^ 64) = wrap64 z.
Proof.
  unfold wrap64. replace (z + k * 2 ^ 64 + 2 ^ 63) with (z + 2 ^ 63 + k * 2 ^ 64) by lia.
  by rewrite Z.mod_add by lia.
Qed.

Lemma wrap64_congruent a b k : a = b + k * 2 ^ 64 -> wrap64 a = wrap64 b.
Proof. intros ->. apply wrap64_shift. Qed.

Lemma wrap64_idemp z : wrap64 (wrap64 z) = wrap64 z.
Proof. apply wrap64_exact, wrap64_in_range. Qed.

Lemma add64_0_r_wrapped a b : add64 (add64 a b) 0 = add64 a b.
Proof. unfold add64. rewrite Z.add_0_r. apply wrap64_idemp. Qed.

(** ** Wraparound of the rebase strategy *)

(** X3 — forward wraparound of the PTS.  On a known track whose last raw
    PTS exceeds the raw PTS of the call by more than [max_timestamp / 2],
    the stored PTS counter becomes one more than before (from 0 when
    absent), the raw PTS of the call becomes the last raw PTS, and the
    adjusted PTS is the rebased PTS plus the new counter times
    [max_timestamp]. *)
Theorem forward_wraparound_pts (track_id : N) (pts dts max_timestamp : Z)
    (s : Stream) (track : MediaTrack) (last_origin_pts : Z) :
  GetTrack s track_id = Some track ->
  _last_origin_ts_map0 s !! track_id = Some last_origin_pts ->
  sub64 last_origin_pts pts > div64 max_timestamp 2 ->
  let call := AdjustTimestampByBase track_id pts dts max_timestamp s in
  let count := add64 (default 0 (_wraparound_count_map0 s !! track_id)) 1 in
  _wraparound_count_map0 call.2 !! track_id = Some count
  ∧ _last_origin_ts_map0 call.2 !! track_id = Some pts
  ∧ adj_ret call.1
    = add64 (rebased track track_id pts dts s) (mul64 count max_timestamp).
Proof.
  intros Htrack Hlast Hforward call count. subst call count.
  adjust_known Htrack.
  case_bool_decide; simpl; rewrite Hlast;
    rewrite (bool_decide_eq_true_2 _ Hforward); simpl;
    unfold increment; rewrite !lookup_insert_eq, add64_0_r_wrapped;
    repeat case_match; simplify_eq/=;
    rewrite ?lookup_insert_eq; done.
Qed.

Lemma forward_wraparound_pts_witness :
  let s := run [CallAdjustTimestampByBase 1 (Examples.MAX_33BIT - 10)
                  (Examples.MAX_33BIT - 10) Examples.MAX_33BIT] Examples.fresh in
  let call := AdjustTimestampByBase 1 3 3 Examples.MAX_33BIT s in
  _wraparound_count_map0 call.2 !! 1%N = Some 1
  ∧ _last_origin_ts_map0 call.2 !! 1%N = Some 3
  ∧ adj_ret call.1 = 14.
Proof.
  intros s call.
  assert (Htrack : GetTrack s 1 = Some Examples.video_90k) by reflexivity.
  assert (Hlast : _last_origin_ts_map0 s !! 1%N = Some (Examples.MAX_33BIT - 10))
    by (vm_compute; reflexivity).
  assert (Hforward : sub64 (Examples.MAX_33BIT - 10) 3 > div64 Examples.MAX_33BIT 2)
    by (vm_compute; reflexivity).
  pose proof (forward_wraparound_pts 1 3 3 Examples.MAX_33BIT s Examples.video_90k
                (Examples.MAX_33BIT - 10) Htrack Hlast Hforward)
    as (Hcount & Horigin & Hret).
  subst call. rewrite Hcount, Horigin, Hret. vm_compute. repeat split.
Defined.

(** ** What a call of the rebase strategy changes *)

(** Everything a call on a known track does to the stream. *)
Lemma AdjustTimestampByBase_known_shape track_id pts dts max_timestamp s track :
  GetTrack s track_id = Some track ->
  let call := AdjustTimestampByBase track_id pts dts max_timestamp s in
  _application call.2 = _application s
  ∧ _msid call.2 = _msid s
  ∧ _tracks call.2 = _tracks s
  ∧ _state call.2 = _state s
  ∧ _last_pkt_received_time call.2 = _last_pkt_received_time s
  ∧ _base_timestamp_map call.2 = _base_timestamp_map s
  ∧ _source_timestamp_map call.2 = _source_timestamp_map s
  ∧ _last_timestamp_map call.2
    = <[track_id := scale (adj_dts call.1) (expr_tb2us track)]> (_last_timestamp_map s)
  ∧ _last_origin_ts_map1 call.2 = <[track_id := dts]> (_last_origin_ts_map1 s)
  ∧ (_last_origin_ts_map0 call.2 = <[track_id := pts]> (_last_origin_ts_map0 s)
     ∨ (_last_origin_ts_map0 call.2 = _last_origin_ts_map0 s
        ∧ is_Some (_last_origin_ts_map0 s !! track_id)))
  ∧ (_wraparound_count_map0 call.2 = _wraparound_count_map0 s
     ∨ (_wraparound_count_map0 call.2 = increment track_id (_wraparound_count_map0 s)
        ∧ is_Some (_last_origin_ts_map0 s !! track_id)))
  ∧ (_wraparound_count_map1 call.2 = _wraparound_count_map1 s
     ∨ (_wraparound_count_map1 call.2 = increment track_id (_wraparound_count_map1 s)
        ∧ is_Some (_last_origin_ts_map1 s !! track_id)))
  ∧ adj_ret call.1 = adj_pts call.1.
Proof.
  intros Htrack call. subst call. unfold AdjustTimestampByBase. rewrite Htrack.
  repeat (case_bool_decide || case_match); simplify_eq/=;
    repeat split; eauto.
Qed.

(** X4 — on a known track every call records the raw DTS as the last raw
    DTS and stores the adjusted DTS, converted to microseconds, as the last
    timestamp of the track, whether or not a wraparound was detected; the
    value returned is the adjusted PTS. *)
Theorem rebase_records_adjusted_dts (track_id : N) (pts dts max_timestamp : Z)
    (s : Stream) (track : MediaTrack) :
  GetTrack s track_id = Some track ->
  let call := AdjustTimestampByBase track_id pts dts max_timestamp s in
  _last_origin_ts_map1 call.2 !! track_id = Some dts
  ∧ _last_timestamp_map call.2 !! track_id
    = Some (scale (adj_dts call.1) (expr_tb2us track))
  ∧ adj_ret call.1 = adj_pts call.1.
Proof.
  intros Htrack call.
  destruct (AdjustTimestampByBase_known_shape track_id pts dts max_timestamp s track Htrack)
    as (_ & _ & _ & _ & _ & _ & _ & Hlast & Hdts & _ & _ & _ & Hret).
  subst call. rewrite Hlast, Hdts, !lookup_insert_eq. done.
Qed.

(** In the late-frame call of [Examples.wrapped_once] (raw PTS [max - 5],
    raw DTS 4) the adjusted DTS is 15 ticks, stored as 166 µs. *)
Lemma rebase_records_adjusted_dts_witness :
  let call :=
    AdjustTimestampByBase 1 (Examples.MAX_33BIT - 5) 4 Examples.MAX_33BIT
      Examples.wrapped_once in
  _last_origin_ts_map1 call.2 !! 1%N = Some 4
  ∧ _last_timestamp_map call.2 !! 1%N = Some 166
  ∧ adj_ret call.1 = 6.
Proof.
  intros call.
  assert (Htrack : GetTrack Examples.wrapped_once 1 = Some Examples.video_90k)
    by reflexivity.
  pose proof (rebase_records_adjusted_dts 1 (Examples.MAX_33BIT - 5) 4
                Examples.MAX_33BIT Examples.wrapped_once Examples.video_90k Htrack)
    as (Hdts & Hlast & Hret).
  subst call. rewrite Hdts, Hlast, Hret. vm_compute. repeat split.
Defined.

(** X5 — no call of the rebase strategy removes or lowers a stored
    wraparound counter: afterwards each PTS and DTS counter is what it was,
    or, for the track of the call, one more than it was (from 0 when
    absent).  A reverse wraparound is never written to the counters. *)
Theorem wraparound_counters_only_grow (track_id : N) (pts dts max_timestamp : Z)
    (s : Stream) (other : N) :
  let call := AdjustTimestampByBase track_id pts dts max_timestamp s in
  (_wraparound_count_map0 call.2 !! other = _wraparound_count_map0 s !! other
   ∨ (other = track_id
      ∧ _wraparound_count_map0 call.2 !! other
        = Some (add64 (default 0 (_wraparound_count_map0 s !! other)) 1)))
  ∧ (_wraparound_count_map1 call.2 !! other = _wraparound_count_map1 s !! other
     ∨ (other = track_id
        ∧ _wraparound_count_map1 call.2 !! other
          = Some (add64 (default 0 (_wraparound_count_map1 s !! other)) 1))).
Proof.
  intros call. subst call.
  destruct (GetTrack s track_id) as [track|] eqn:Htrack.
  - destruct (AdjustTimestampByBase_known_shape track_id pts dts max_timestamp s track Htrack)
      as (_ & _ & _ & _ & _ & _ & _ & _ & _ & _ & Hcount0 & Hcount1 & _).
    split.
    + destruct Hcount0 as [-> | [-> _]]; [by left|].
      unfold increment. destruct (decide (other = track_id)) as [->|Hne].
      * right. by rewrite lookup_insert_eq.
      * left. by rewrite lookup_insert_ne.
    + destruct Hcount1 as [-> | [-> _]]; [by left|].
      unfold increment. destruct (decide (other = track_id)) as [->|Hne].
      * right. by rewrite lookup_insert_eq.
      * left. by rewrite lookup_insert_ne.
  - rewrite AdjustTimestampByBase_unknown_track by done. by split; left.
Qed.

(** X6 — a call of the rebase strategy for one track leaves every other
    track alone: the last timestamp, the last raw PTS and DTS and both
    counters of any other id are unchanged, and so are the base timestamps
    and the baselines of the delta strategy of all ids. *)
Theorem rebase_isolates_tracks (track_id : N) (pts dts max_timestamp : Z)
    (s : Stream) (other : N) :
  other ≠ track_id ->
  let s' := (AdjustTimestampByBase track_id pts dts max_timestamp s).2 in
  _last_timestamp_map s' !! other = _last_timestamp_map s !! other
  ∧ _last_origin_ts_map0 s' !! other = _last_origin_ts_map0 s !! other
  ∧ _last_origin_ts_map1 s' !! other = _last_origin_ts_map1 s !! other
  ∧ _wraparound_count_map0 s' !! other = _wraparound_count_map0 s !! other
  ∧ _wraparound_count_map1 s' !! other = _wraparound_count_map1 s !! other
  ∧ _base_timestamp_map s' = _base_timestamp_map s
  ∧ _source_timestamp_map s' = _source_timestamp_map s.
Proof.
  intros Hne s'. subst s'.
  destruct (GetTrack s track_id) as [track|] eqn:Htrack.
  - destruct (AdjustTimestampByBase_known_shape track_id pts dts max_timestamp s track Htrack)
      as (_ & _ & _ & _ & _ & Hbase & Hsource & Hlast & Hdts & Hpts & Hcount0 & Hcount1 & _).
    rewrite Hbase, Hsource, Hlast, Hdts.
    assert (Hneq : track_id ≠ other) by done.
    rewrite !lookup_insert_ne by done.
    repeat split.
    + destruct Hpts as [-> | [-> _]]; [by rewrite lookup_insert_ne | done].
    + destruct Hcount0 as [-> | [-> _]]; [done|].
      unfold increment. by rewrite lookup_insert_ne.
    + destruct Hcount1 as [-> | [-> _]]; [done|].
      unfold increment. by rewrite lookup_insert_ne.
  - by rewrite AdjustTimestampByBase_unknown_track.
Qed.

(** A call for the video track of [Examples.playing] leaves the audio
    track's last timestamp 3000 in place. *)
Lemma rebase_isolates_tracks_witness :
  _last_timestamp_map
    (AdjustTimestampByBase 1 9000 9000 Examples.MAX_33BIT Examples.playing).2 !! 2%N
  = Some 3000.
Proof.
  assert (Hne : (2 ≠ 1)%N) by discriminate.
  pose proof (rebase_isolates_tracks 1 9000 9000 Examples.MAX_33BIT Examples.playing 2 Hne)
    as (Hlast & _).
  rewrite Hlast. reflexivity.
Defined.

(** ** Differences survive the rebase *)

Lemma sub64_add64_r a b c : sub64 (add64 a c) (add64 b c) = sub64 a b.
Proof.
  unfold sub64, add64.
  destruct (wrap64_decompose (a + c)) as [k1 ->].
  destruct (wrap64_decompose (b + c)) as [k2 ->].
  apply (wrap64_congruent _ _ (k1 - k2)). lia.
Qed.

Lemma sub64_add64_l a b c : sub64 (add64 c a) (add64 c b) = sub64 a b.
Proof.
  unfold sub64, add64.
  destruct (wrap64_decompose (c + a)) as [k1 ->].
  destruct (wrap64_decompose (c + b)) as [k2 ->].
  apply (wrap64_congruent _ _ (k1 - k2)). lia.
Qed.

Lemma sub64_sub64_r a b c : sub64 (sub64 a c) (sub64 b c) = sub64 a b.
Proof.
  unfold sub64.
  destruct (wrap64_decompose (a - c)) as [k1 ->].
  destruct (wrap64_decompose (b - c)) as [k2 ->].
  apply (wrap64_congruent _ _ (k1 - k2)). lia.
Qed.

(** The outcome of a call that detects no PTS wraparound. *)
Lemma AdjustTimestampByBase_no_pts_wraparound track_id pts dts max_timestamp s track :
  GetTrack s track_id = Some track ->
  no_pts_wraparound track_id pts max_timestamp s ->
  let call := AdjustTimestampByBase track_id pts dts max_timestamp s in
  adj_pts call.1
  = match _wraparound_count_map0 s !! track_id with
    | Some count =>
        add64 (rebased track track_id pts dts s) (mul64 (add64 count 0) max_timestamp)
    | None => rebased track track_id pts dts s
    end
  ∧ _last_origin_ts_map0 call.2 !! track_id = Some pts
  ∧ _wraparound_count_map0 call.2 = _wraparound_count_map0 s.
Proof.
  intros Htrack Hno call. subst call. adjust_known Htrack.
  destruct (_last_origin_ts_map0 s !! track_id) as [last|] eqn:Hlast.
  - destruct (Hno last Hlast) as [Hforward Hreverse].
    case_bool_decide; simpl; rewrite Hlast;
      rewrite (bool_decide_eq_false_2 _ Hforward);
      rewrite (bool_decide_eq_false_2 _ Hreverse); simpl;
      repeat case_match; simplify_eq/=; rewrite ?lookup_insert_eq; done.
  - case_bool_decide; simpl; rewrite Hlast; simpl;
      repeat case_match; simplify_eq/=; rewrite ?lookup_insert_eq; done.
Qed.

(** X7 — the increments of the raw PTS survive the rebase.  For two
    consecutive calls on a known track, neither classified as a PTS
    wraparound, with the start timestamp in place after the first, the
    difference of the two adjusted PTS is the difference of the two raw PTS
    (as [int64_t] differences). *)
Theorem rebase_keeps_pts_increments (track_id : N) (pts1 dts1 pts2 dts2 max_timestamp : Z)
    (s : Stream) (track : MediaTrack) :
  GetTrack s track_id = Some track ->
  start_timestamp_for track dts1 s ≠ -1 ->
  no_pts_wraparound track_id pts1 max_timestamp s ->
  ¬ (sub64 pts1 pts2 > div64 max_timestamp 2) ->
  ¬ (sub64 pts2 pts1 > div64 max_timestamp 2) ->
  let first := AdjustTimestampByBase track_id pts1 dts1 max_timestamp s in
  let second := AdjustTimestampByBase track_id pts2 dts2 max_timestamp first.2 in
  sub64 (adj_pts second.1) (adj_pts first.1) = sub64 pts2 pts1.
Proof.
  intros Htrack Hstart Hno1 Hforward Hreverse first second.
  destruct (AdjustTimestampByBase_no_pts_wraparound
              track_id pts1 dts1 max_timestamp s track Htrack Hno1)
    as (Hpts1 & Horigin1 & Hcount1).
  destruct (AdjustTimestampByBase_known_shape track_id pts1 dts1 max_timestamp s track Htrack)
    as (_ & _ & Htracks & _ & _ & Hbase & _).
  pose proof (AdjustTimestampByBase_start track_id pts1 dts1 max_timestamp s track Htrack)
    as Hstart1.
  fold first in Hpts1, Horigin1, Hcount1, Htracks, Hbase, Hstart1.
  assert (Htrack2 : GetTrack first.2 track_id = Some track).
  { unfold GetTrack. rewrite Htracks. exact Htrack. }
  assert (Hno2 : no_pts_wraparound track_id pts2 max_timestamp first.2).
  { intros last Hlast. rewrite Horigin1 in Hlast. by injection Hlast as <-. }
  destruct (AdjustTimestampByBase_no_pts_wraparound
              track_id pts2 dts2 max_timestamp first.2 track Htrack2 Hno2)
    as (Hpts2 & _ & _).
  fold second in Hpts2. rewrite Hpts2, Hpts1, Hcount1.
  assert (Hrebased : ∀ v, rebased track track_id v dts2 first.2
                          = add64 (match _base_timestamp_map s !! track_id with
                                   | Some base => scale base (expr_us2tb track)
                                   | None => 0
                                   end)
                                  (sub64 v (scale (start_timestamp_for track dts1 s)
                                                  (expr_us2tb track)))).
  { intros v. unfold rebased. rewrite Hbase.
    unfold start_timestamp_for at 1. rewrite Hstart1.
    by rewrite bool_decide_eq_false_2 by done. }
  rewrite Hrebased. unfold rebased.
  destruct (_wraparound_count_map0 s !! track_id) as [count|];
    rewrite ?sub64_add64_r, sub64_add64_l, sub64_sub64_r; done.
Qed.

(** Two frames of [Examples.playing], raw PTS 9000 and 12000: the adjusted
    PTS are 3000 ticks apart. *)
Lemma rebase_keeps_pts_increments_witness :
  let first := AdjustTimestampByBase 1 9000 9000 Examples.MAX_33BIT Examples.playing in
  let second := AdjustTimestampByBase 1 12000 12000 Examples.MAX_33BIT first.2 in
  sub64 (adj_pts second.1) (adj_pts first.1) = 3000.
Proof.
  intros first second.
  change 3000 with (sub64 12000 9000).
  apply (rebase_keeps_pts_increments 1 9000 9000 12000 12000 Examples.MAX_33BIT
           Examples.playing Examples.video_90k).
  - reflexivity.
  - vm_compute. discriminate.
  - intros last Hlast. vm_compute in Hlast. discriminate.
  - vm_compute. discriminate.
  - vm_compute. discriminate.
Defined.

(** X8 — before any wraparound has been counted for a track, a call keeps
    the distance between PTS and DTS: when the track has no PTS and no DTS
    counter after the call, the adjusted PTS and DTS differ by what the raw
    PTS and DTS differ (as [int64_t] differences). *)
Theorem rebase_keeps_pts_dts_distance (track_id : N) (pts dts max_timestamp : Z)
    (s : Stream) (track : MediaTrack) :
  GetTrack s track_id = Some track ->
  let call := AdjustTimestampByBase track_id pts dts max_timestamp s in
  _wraparound_count_map0 call.2 !! track_id = None ->
  _wraparound_count_map1 call.2 !! track_id = None ->
  sub64 (adj_pts call.1) (adj_dts call.1) = sub64 pts dts.
Proof.
  intros Htrack call. subst call. unfold AdjustTimestampByBase. rewrite Htrack.
  repeat (case_bool_decide || case_match); simplify_eq/=;
    unfold increment; rewrite ?lookup_insert_eq; intros Hcount0 Hcount1;
    simplify_eq/=; by rewrite sub64_add64_l, sub64_sub64_r.
Qed.

(** The first frame of a new stream with raw PTS 4600 and raw DTS 1000:
    the adjusted values are 3600 ticks apart. *)
Lemma rebase_keeps_pts_dts_distance_witness :
  let call := AdjustTimestampByBase 1 4600 1000 Examples.MAX_33BIT Examples.fresh in
  sub64 (adj_pts call.1) (adj_dts call.1) = 3600.
Proof.
  intros call. change 3600 with (sub64 4600 1000).
  apply (rebase_keeps_pts_dts_distance 1 4600 1000 Examples.MAX_33BIT
           Examples.fresh Examples.video_90k); reflexivity.
Defined.

(** ** The wraparound bookkeeping of reachable streams *)

Lemma wraparound_maps_known_frame s s' :
  _tracks s' = _tracks s ->
  _last_origin_ts_map0 s' = _last_origin_ts_map0 s ->
  _last_origin_ts_map1 s' = _last_origin_ts_map1 s ->
  _wraparound_count_map0 s' = _wraparound_count_map0 s ->
  _wraparound_count_map1 s' = _wraparound_count_map1 s ->
  wraparound_maps_known s -> wraparound_maps_known s'.
Proof.
  unfold wraparound_maps_known. by intros -> -> -> -> ->.
Qed.

Lemma AdjustTimestampByBase_wraparound_maps_known track_id pts dts max_timestamp s :
  wraparound_maps_known s ->
  wraparound_maps_known (AdjustTimestampByBase track_id pts dts max_timestamp s).2.
Proof.
  intros (Hsame & Hknown & Hcount0 & Hcount1).
  destruct (GetTrack s track_id) as [track|] eqn:Htrack;
    [|by rewrite AdjustTimestampByBase_unknown_track].
  destruct (AdjustTimestampByBase_known_shape track_id pts dts max_timestamp s track Htrack)
    as (_ & _ & Htracks & _ & _ & _ & _ & _ & Hdts & Hpts & Hc0 & Hc1 & _).
  assert (Hid : track_id ∈ dom (_tracks s)) by (apply elem_of_dom; eauto).
  unfold wraparound_maps_known. rewrite Htracks, Hdts, dom_insert_L.
  assert (Hpts' : dom (_last_origin_ts_map0
                         (AdjustTimestampByBase track_id pts dts max_timestamp s).2)
                  = {[track_id]} ∪ dom (_last_origin_ts_map0 s)).
  { destruct Hpts as [-> | [-> Hin]]; [apply dom_insert_L|].
    apply elem_of_dom in Hin. apply set_eq. intros i.
    rewrite elem_of_union, elem_of_singleton. split; [by right|].
    by intros [-> | ?]. }
  rewrite Hpts'. split; [by rewrite Hsame|]. split.
  - apply union_least; [by apply singleton_subseteq_l | done].
  - split.
    + destruct Hc0 as [-> | [-> Hin]].
      * by apply union_subseteq_r'.
      * unfold increment. rewrite dom_insert_L. by apply union_mono_l.
    + destruct Hc1 as [-> | [-> Hin]].
      * by apply union_subseteq_r'.
      * unfold increment. rewrite dom_insert_L. by apply union_mono_l.
Qed.

Lemma exec_wraparound_maps_known c s :
  wraparound_maps_known s -> wraparound_maps_known (exec c s).
Proof.
  intros Hinv. destruct c; simpl.
  - apply (wraparound_maps_known_frame s); [..|done];
      unfold UpdateReconnectTimeToBasetime; by case_bool_decide.
  - apply (wraparound_maps_known_frame s); [..|done];
      unfold Stop; by case_bool_decide.
  - by apply (wraparound_maps_known_frame s).
  - apply (wraparound_maps_known_frame s); [..|done];
      unfold SetState; by case_bool_decide.
  - by apply AdjustTimestampByBase_wraparound_maps_known.
  - by rewrite GetBaseTimestamp_read_only.
  - rewrite AdjustTimestampByDelta_unfold. by apply (wraparound_maps_known_frame s).
  - by destruct (SendFrame_state now packet s) as [-> | ->].
  - by destruct (SendDataFrame_state now timestamp format packet_type frame s)
      as [-> | ->].
Qed.

Lemma run_wraparound_maps_known calls s :
  wraparound_maps_known s -> wraparound_maps_known (run calls s).
Proof.
  revert s. induction calls as [|c calls IH]; intros s Hinv; [done|].
  change (run (c :: calls) s) with (run calls (exec c s)).
  by apply IH, exec_wraparound_maps_known.
Qed.

(** X9 — on every stream reached from a new one by calls of this file, the
    wraparound bookkeeping concerns known tracks only: the last raw PTS and
    the last raw DTS are recorded for the same ids, each of them in the Track
    Directory, and a wraparound counter exists only for an id whose last raw
    value is recorded. *)
Theorem reachable_wraparound_maps_known (s : Stream) :
  reachable s -> wraparound_maps_known s.
Proof.
  intros (app & tracks & calls & ->). apply run_wraparound_maps_known.
  unfold wraparound_maps_known, new_stream. simpl.
  rewrite !dom_empty_L. repeat split; apply empty_subseteq.
Qed.

Lemma reachable_wraparound_maps_known_witness :
  wraparound_maps_known Examples.wrapped_once.
Proof.
  apply reachable_wraparound_maps_known.
  exists None, (<[1%N := Examples.video_90k]> (<[2%N := Examples.audio_48k]> ∅)),
    [CallAdjustTimestampByBase 1 (Examples.MAX_33BIT - 10) (Examples.MAX_33BIT - 10)
       Examples.MAX_33BIT;
     CallAdjustTimestampByBase 1 3 3 Examples.MAX_33BIT].
  reflexivity.
Defined.

(** ** The delta strategy on its domain *)

(** X10 — for raw timestamps within [0, max_timestamp] (the baseline of
    the track too, when there is one) the delta is never negative and never
    more than [max_timestamp]: the clock of the track does not run
    backwards, whichever of the three cases applies. *)
Theorem delta_within_bounds (track_id : N) (timestamp max_timestamp : Z) (s : Stream) :
  0 <= timestamp <= max_timestamp ->
  max_timestamp <= INT64_MAX ->
  (∀ baseline, _source_timestamp_map s !! track_id = Some baseline ->
               0 <= baseline <= max_timestamp) ->
  0 <= (GetDeltaTimestamp track_id timestamp max_timestamp s).1 <= max_timestamp.
Proof.
  intros Hts Hmax Hbaseline. unfold GetDeltaTimestamp.
  destruct (_source_timestamp_map s !! track_id) as [baseline|] eqn:Hsource;
    simpl; [|lia].
  specialize (Hbaseline baseline eq_refl).
  assert (Hrange : ∀ z, 0 <= z <= max_timestamp -> in_range z).
  { intros z Hz. unfold in_range, INT64_MIN, INT64_MAX in *. lia. }
  case_bool_decide as Hlt.
  - destruct (exceeds_99_99_percent baseline max_timestamp); [|lia].
    unfold add64, sub64.
    rewrite (wrap64_exact (max_timestamp - baseline)) by (apply Hrange; lia).
    rewrite wrap64_exact by (apply Hrange; lia). lia.
  - unfold sub64. rewrite wrap64_exact by (apply Hrange; lia). lia.
Qed.

Lemma delta_within_bounds_witness :
  0 <= (GetDeltaTimestamp 1 10 Examples.MAX_32BIT Examples.delta_near_wrap).1
    <= Examples.MAX_32BIT.
Proof.
  apply (delta_within_bounds 1 10 Examples.MAX_32BIT Examples.delta_near_wrap).
  - vm_compute. split; discriminate.
  - vm_compute. discriminate.
  - intros baseline Hbaseline. vm_compute in Hbaseline.
    injection Hbaseline as <-. vm_compute. split; discriminate.
Defined.

Lemma run_delta_calls_cons track_id max_timestamp t rest s :
  run (delta_calls track_id max_timestamp (t :: rest)) s
  = run (delta_calls track_id max_timestamp rest)
        (AdjustTimestampByDelta track_id t max_timestamp s).2.
Proof. reflexivity. Qed.

Lemma last_cons_default (t d : Z) (rest : list Z) :
  List.last (t :: rest) d = List.last rest t.
Proof.
  revert t d. induction rest as [|a rest IH]; intros t d; [done|].
  change (List.last (t :: a :: rest) d) with (List.last (a :: rest) d).
  by rewrite !IH.
Qed.

(** A non-decreasing continuation of an established baseline. *)
Lemma delta_calls_from_baseline track_id max_timestamp timestamps :
  ∀ s baseline total,
    _source_timestamp_map s !! track_id = Some baseline ->
    _last_timestamp_map s !! track_id = Some total ->
    in_range total ->
    nondecreasing_from baseline timestamps ->
    let s' := run (delta_calls track_id max_timestamp timestamps) s in
    _last_timestamp_map s' !! track_id
    = Some (wrap64 (total + (List.last timestamps baseline - baseline)))
    ∧ _source_timestamp_map s' !! track_id = Some (List.last timestamps baseline).
Proof.
  induction timestamps as [|t rest IH]; intros s baseline total Hsource Hlast Htotal Hsorted.
  - simpl. rewrite Z.sub_diag, Z.add_0_r, wrap64_exact by done. done.
  - destruct Hsorted as [Hle Hrest].
    rewrite run_delta_calls_cons, last_cons_default.
    pose proof (AdjustTimestampByDelta_unfold track_id t max_timestamp s) as Hcall.
    simpl in Hcall. rewrite Hlast in Hcall. simpl in Hcall.
    assert (Hdelta : (GetDeltaTimestamp track_id t max_timestamp s).1 = sub64 t baseline).
    { unfold GetDeltaTimestamp. rewrite Hsource. simpl.
      rewrite bool_decide_eq_false_2; [done|lia]. }
    rewrite Hdelta in Hcall. rewrite Hcall. simpl.
    specialize (IH (set_last_timestamp_map
                      (<[track_id := add64 total (sub64 t baseline)]> (_last_timestamp_map s))
                      (set_source_timestamp_map
                         (<[track_id := t]> (_source_timestamp_map s)) s))
                   t (add64 total (sub64 t baseline))).
    simpl in IH. rewrite !lookup_insert_eq in IH.
    specialize (IH eq_refl eq_refl (wrap64_in_range _) Hrest).
    destruct IH as [IHlast IHsource]. split.
    + rewrite IHlast. f_equal.
      unfold add64, sub64.
      destruct (wrap64_decompose (t - baseline)) as [k1 ->].
      destruct (wrap64_decompose (total + (t - baseline + k1 * 2 ^ 64))) as [k2 ->].
      apply (wrap64_congruent _ _ (k1 + k2)). lia.
    + by rewrite IHsource.
Qed.

(** X11 — a track without a baseline (never seen, or after the reset of a
    [Stop]) that receives a first raw timestamp and then a non-decreasing
    sequence ends with its running total advanced by exactly the last raw
    timestamp minus the first (reduced to [int64_t]): the origin of the raw
    timestamps does not show, and the last raw timestamp is the new
    baseline. *)
Theorem delta_strategy_telescopes (track_id : N) (max_timestamp first : Z)
    (rest : list Z) (s : Stream) :
  _source_timestamp_map s !! track_id = None ->
  in_range (default 0 (_last_timestamp_map s !! track_id)) ->
  nondecreasing_from first rest ->
  let s' := run (delta_calls track_id max_timestamp (first :: rest)) s in
  _last_timestamp_map s' !! track_id
  = Some (wrap64 (default 0 (_last_timestamp_map s !! track_id)
                  + (List.last rest first - first)))
  ∧ _source_timestamp_map s' !! track_id = Some (List.last rest first).
Proof.
  intros Hsource Htotal Hsorted s'. subst s'.
  rewrite run_delta_calls_cons.
  pose proof (AdjustTimestampByDelta_unfold track_id first max_timestamp s) as Hcall.
  simpl in Hcall.
  assert (Hdelta : (GetDeltaTimestamp track_id first max_timestamp s).1 = 0).
  { unfold GetDeltaTimestamp. by rewrite Hsource. }
  rewrite Hdelta in Hcall. unfold add64 in Hcall. rewrite Z.add_0_r in Hcall.
  rewrite (wrap64_exact _ Htotal) in Hcall. rewrite Hcall.
  apply delta_calls_from_baseline; simpl; rewrite ?lookup_insert_eq; done.
Qed.

(** Raw timestamps 777000, 777040, 777040, 777100 on a new stream: the
    running total ends at 100. *)
Lemma delta_strategy_telescopes_witness :
  let s' := run (delta_calls 2 Examples.MAX_32BIT [777000; 777040; 777040; 777100])
                Examples.fresh in
  _last_timestamp_map s' !! 2%N = Some 100
  ∧ _source_timestamp_map s' !! 2%N = Some 777100.
Proof.
  intros s'.
  assert (Hsource : _source_timestamp_map Examples.fresh !! 2%N = None) by reflexivity.
  assert (Htotal : in_range (default 0 (_last_timestamp_map Examples.fresh !! 2%N)))
    by (vm_compute; split; discriminate).
  assert (Hsorted : nondecreasing_from 777000 [777040; 777040; 777100])
    by (simpl; lia).
  pose proof (delta_strategy_telescopes 2 Examples.MAX_32BIT 777000
                [777040; 777040; 777100] Examples.fresh Hsource Htotal Hsorted)
    as [Hlast Hbaseline].
  subst s'. rewrite Hlast, Hbaseline. vm_compute. split; reflexivity.
Defined.

(** ** The delta strategy and the rest of the stream *)

(** X12 — the reset of [Stop] forgets the baselines but not the running
    totals: on a stream that was not STOPPED, the first call of the delta
    strategy after [Stop] returns the running total the track had, whatever
    raw timestamp it brings, and takes that timestamp as the new baseline. *)
Theorem delta_resumes_after_Stop (track_id : N) (timestamp max_timestamp : Z)
    (s : Stream) (total : Z) :
  _state s ≠ STOPPED ->
  _last_timestamp_map s !! track_id = Some total ->
  in_range total ->
  let call := AdjustTimestampByDelta track_id timestamp max_timestamp (Stop s).2 in
  call.1 = total
  ∧ _last_timestamp_map call.2 !! track_id = Some total
  ∧ _source_timestamp_map call.2 !! track_id = Some timestamp.
Proof.
  intros Hstate Hlast Htotal call. subst call.
  rewrite AdjustTimestampByDelta_unfold. unfold Stop.
  rewrite bool_decide_eq_false_2 by done. simpl.
  rewrite !lookup_insert_eq, Hlast. simpl.
  unfold GetDeltaTimestamp. simpl. rewrite lookup_empty. simpl.
  unfold add64. rewrite Z.add_0_r, wrap64_exact by done. done.
Qed.

(** After a [Stop] of [Examples.playing] the audio track, whose running
    total is 3000, resumes at 3000 with the raw timestamp 42. *)
Lemma delta_resumes_after_Stop_witness :
  (AdjustTimestampByDelta 2 42 Examples.MAX_32BIT (Stop Examples.playing).2).1 = 3000.
Proof.
  apply (delta_resumes_after_Stop 2 42 Examples.MAX_32BIT Examples.playing 3000).
  - discriminate.
  - reflexivity.
  - vm_compute. split; discriminate.
Defined.

(** X13 — a call of the delta strategy for one track changes the baseline
    and the running total of that track and nothing else: the entries of
    every other id, the base timestamps, the start timestamp, the wraparound
    bookkeeping and the state are as before. *)
Theorem delta_isolates_tracks (track_id : N) (timestamp max_timestamp : Z)
    (s : Stream) (other : N) :
  other ≠ track_id ->
  let s' := (AdjustTimestampByDelta track_id timestamp max_timestamp s).2 in
  _source_timestamp_map s' !! other = _source_timestamp_map s !! other
  ∧ _last_timestamp_map s' !! other = _last_timestamp_map s !! other
  ∧ _base_timestamp_map s' = _base_timestamp_map s
  ∧ _start_timestamp s' = _start_timestamp s
  ∧ _last_origin_ts_map0 s' = _last_origin_ts_map0 s
  ∧ _last_origin_ts_map1 s' = _last_origin_ts_map1 s
  ∧ _wraparound_count_map0 s' = _wraparound_count_map0 s
  ∧ _wraparound_count_map1 s' = _wraparound_count_map1 s
  ∧ _state s' = _state s.
Proof.
  intros Hne s'. subst s'. rewrite AdjustTimestampByDelta_unfold. simpl.
  assert (Hneq : track_id ≠ other) by done.
  by rewrite !lookup_insert_ne by done.
Qed.

Lemma delta_isolates_tracks_witness :
  _last_timestamp_map
    (AdjustTimestampByDelta 2 900 Examples.MAX_32BIT Examples.playing).2 !! 1%N
  = Some 5000.
Proof.
  assert (Hne : (1 ≠ 2)%N) by discriminate.
  pose proof (delta_isolates_tracks 2 900 Examples.MAX_32BIT Examples.playing 1 Hne)
    as (_ & Hlast & _).
  rewrite Hlast. reflexivity.
Defined.

(** ** The state machine over runs *)

Lemma AdjustTimestampByBase_state track_id pts dts max_timestamp s :
  _state (AdjustTimestampByBase track_id pts dts max_timestamp s).2 = _state s.
Proof.
  destruct (GetTrack s track_id) as [track|] eqn:Htrack.
  - by destruct (AdjustTimestampByBase_known_shape
                   track_id pts dts max_timestamp s track Htrack)
      as (_ & _ & _ & Hstate & _).
  - by rewrite AdjustTimestampByBase_unknown_track.
Qed.

Lemma exec_not_STOPPED c s :
  c ≠ CallStop -> _state s ≠ STOPPED -> _state (exec c s) ≠ STOPPED.
Proof.
  intros Hcall Hstate. destruct c; simpl.
  - unfold UpdateReconnectTimeToBasetime. by case_bool_decide.
  - done.
  - discriminate.
  - unfold SetState. by case_bool_decide.
  - by rewrite AdjustTimestampByBase_state.
  - by rewrite GetBaseTimestamp_read_only.
  - by rewrite AdjustTimestampByDelta_unfold.
  - by destruct (SendFrame_state now packet s) as [-> | ->].
  - by destruct (SendDataFrame_state now timestamp format packet_type frame s)
      as [-> | ->].
Qed.

(** X14 — STOPPED is entered by [Stop] only: a stream that is not STOPPED
    is not STOPPED after any sequence of calls without a [Stop], whatever
    states [SetState] is asked for on the way. *)
Theorem STOPPED_only_by_Stop (calls : list Call) (s : Stream) :
  CallStop ∉ calls -> _state s ≠ STOPPED -> _state (run calls s) ≠ STOPPED.
Proof.
  revert s. induction calls as [|c calls IH]; intros s Hcalls Hstate; [done|].
  change (run (c :: calls) s) with (run calls (exec c s)).
  apply not_elem_of_cons in Hcalls as [Hc Hrest].
  apply IH; [done|]. apply exec_not_STOPPED; [by intros -> | done].
Qed.

Lemma STOPPED_only_by_Stop_witness :
  _state (run [CallSetState STOPPED; CallStart 7; CallTerminate; CallSetState STOPPED]
              Examples.playing) ≠ STOPPED.
Proof.
  apply STOPPED_only_by_Stop.
  - intros Hin. repeat (apply elem_of_cons in Hin as [Hin|Hin]; [discriminate|]).
    by apply elem_of_nil in Hin.
  - discriminate.
Defined.

(** ** Dispatch *)

(** X15 — the outcome of [SendFrame].  With an application attached and a
    packet that passes the validation, the ingress bytes are counted, the
    instant of the call becomes the instant of the last packet and the
    packet is handed to the application, whose answer is returned: the
    count and the instant are recorded even when the application refuses
    the frame.  In every other case the call returns false, the stream is
    unchanged and nothing but an error log is produced. *)
Theorem SendFrame_outcome (now : time_point) (packet : MediaPacket) (s : Stream) :
  (∀ application,
     _application s = Some application ->
     passes_validation packet = true ->
     SendFrame now packet s
     = (app_SendFrame application packet,
        set_last_pkt_received_time now s,
        [IncreaseBytesIn (N.of_nat (length (pkt_data packet)));
         ApplicationSendFrame packet]))
  ∧ (_application s = None ∨ passes_validation packet = false ->
     (SendFrame now packet s).1 = (false, s)
     ∧ ∀ effect, effect ∈ (SendFrame now packet s).2 ->
                 ∃ message, effect = LogError message).
Proof.
  unfold SendFrame, passes_validation. split.
  - intros application -> Hvalid.
    apply andb_true_iff in Hvalid as [Htype Hformat].
    apply negb_true_iff in Htype. rewrite Htype.
    destruct (bool_decide (pkt_packet_type packet = PT_OVT)) eqn:Hovt.
    + apply bool_decide_eq_true in Hovt.
      rewrite (bool_decide_eq_false_2 (pkt_packet_type packet ≠ PT_OVT))
        by (by intros Hne). done.
    + simpl in Hformat. apply negb_true_iff in Hformat.
      by rewrite Hformat, andb_false_r.
  - intros Hrefused.
    destruct (_application s) as [application|].
    + destruct Hrefused as [|Hinvalid]; [done|].
      destruct (bool_decide (pkt_packet_type packet = PT_Unknown)) eqn:Htype.
      * split; [done|]. intros effect Hin.
        apply list_elem_of_singleton in Hin. eauto.
      * simpl in Hinvalid. apply orb_false_iff in Hinvalid as [Hovt Hformat].
        apply negb_false_iff in Hformat. apply bool_decide_eq_false in Hovt.
        rewrite (bool_decide_eq_true_2 (pkt_packet_type packet ≠ PT_OVT)) by done.
        rewrite Hformat. simpl. split; [done|]. intros effect Hin.
        apply list_elem_of_singleton in Hin. eauto.
    + split; [done|]. intros effect Hin. by apply elem_of_nil in Hin.
Qed.

(** The relay packet on a stream whose application refuses every frame:
    false is returned, yet three bytes were counted and the instant 12345
    recorded; the same packet with an unspecified type changes nothing. *)
Lemma SendFrame_outcome_witness :
  SendFrame 12345 MoreExamples.relay_packet MoreExamples.attached
  = (false, set_last_pkt_received_time 12345 MoreExamples.attached,
     [IncreaseBytesIn 3; ApplicationSendFrame MoreExamples.relay_packet])
  ∧ (SendFrame 12345 MoreExamples.relay_packet Examples.fresh).1
    = (false, Examples.fresh).
Proof.
  destruct (SendFrame_outcome 12345 MoreExamples.relay_packet MoreExamples.attached)
    as [Haccepted _].
  destruct (SendFrame_outcome 12345 MoreExamples.relay_packet Examples.fresh)
    as [_ Hrefused].
  split.
  - apply (Haccepted MoreExamples.refusing_application); reflexivity.
  - apply Hrefused. left. reflexivity.
Defined.

(** X16 — whatever [SendDataFrame] hands to the application is a packet of
    the data kind on a track of the data kind, with PTS and DTS both equal
    to the timestamp of the call, carrying the payload, the format and the
    packet type of the call and the msid of the stream. *)
Theorem SendDataFrame_packet (now : time_point) (timestamp : Z)
    (format : BitstreamFormat) (packet_type : PacketType)
    (frame : option (list Byte.byte)) (s : Stream) (packet : MediaPacket) :
  ApplicationSendFrame packet
    ∈ (SendDataFrame now timestamp format packet_type frame s).2 ->
  pkt_pts packet = timestamp
  ∧ pkt_dts packet = timestamp
  ∧ pkt_media_type packet = MT_Data
  ∧ pkt_bitstream_format packet = format
  ∧ pkt_packet_type packet = packet_type
  ∧ frame = Some (pkt_data packet)
  ∧ pkt_msid packet = _msid s
  ∧ ∃ data_track, GetFirstTrackByType s MT_Data = Some data_track
                  ∧ pkt_track_id packet = track_id_of data_track.
Proof.
  unfold SendDataFrame. destruct frame as [data|]; simpl.
  - destruct (GetFirstTrackByType s MT_Data) as [data_track|]; simpl.
    + unfold SendFrame. destruct (_application s) as [application|]; simpl.
      * repeat case_match; simpl; intros Hin.
        -- apply list_elem_of_singleton in Hin. discriminate.
        -- apply list_elem_of_singleton in Hin. discriminate.
        -- apply elem_of_cons in Hin as [Hin|Hin]; [discriminate|].
           apply list_elem_of_singleton in Hin. injection Hin as ->. simpl.
           repeat split. eauto.
      * intros Hin. by apply elem_of_nil in Hin.
    + intros Hin. apply list_elem_of_singleton in Hin. discriminate.
  - intros Hin. by apply elem_of_nil in Hin.
Qed.

(** A data frame of one byte at timestamp 9000 on the attached stream goes
    out on the data track 3 with PTS = DTS = 9000. *)
Lemma SendDataFrame_packet_witness :
  let packet := mkPacket 0 MT_Data 3 [Byte.x2a] 9000 9000 (BF_Format 7) (PT_Type 2) in
  pkt_pts packet = 9000
  ∧ pkt_dts packet = 9000
  ∧ pkt_media_type packet = MT_Data
  ∧ pkt_bitstream_format packet = BF_Format 7
  ∧ pkt_packet_type packet = PT_Type 2
  ∧ Some [Byte.x2a] = Some (pkt_data packet)
  ∧ pkt_msid packet = _msid MoreExamples.attached
  ∧ ∃ data_track, GetFirstTrackByType MoreExamples.attached MT_Data = Some data_track
                  ∧ pkt_track_id packet = track_id_of data_track.
Proof.
  intros packet.
  apply (SendDataFrame_packet 12345 9000 (BF_Format 7) (PT_Type 2) (Some [Byte.x2a])
           MoreExamples.attached packet).
  vm_compute. apply elem_of_cons. right. apply elem_of_cons. left. reflexivity.
Defined.

(** ** Reconnections *)

Lemma Start_last_pkt_received_time now s :
  _last_pkt_received_time (Start now s).2 = _last_pkt_received_time s.
Proof. simpl. unfold UpdateReconnectTimeToBasetime. by case_bool_decide. Qed.

(** X17 — reconnect bridging from end to end: after a frame dispatched at
    the instant [received] (application attached, packet valid), a [Start] at
    the instant [now] moves every base timestamp forward by the microseconds
    between the two instants, and creates none. *)
Theorem reconnect_bridges_from_last_frame (received now : time_point)
    (packet : MediaPacket) (s : Stream) (track_id : N) :
  is_Some (_application s) ->
  passes_validation packet = true ->
  received ≠ time_point_min ->
  _base_timestamp_map (Start now (SendFrame received packet s).1.2).2 !! track_id
  = (λ t, add64 t (elapsed_microseconds now received))
      <$> _base_timestamp_map s !! track_id.
Proof.
  intros [application Happ] Hvalid Hreceived.
  assert (Hsent : (SendFrame received packet s).1.2
                  = set_last_pkt_received_time received s).
  { unfold SendFrame, passes_validation in *. rewrite Happ.
    apply andb_true_iff in Hvalid as [Htype Hformat].
    apply negb_true_iff in Htype. rewrite Htype.
    destruct (bool_decide (pkt_packet_type packet = PT_OVT)) eqn:Hovt.
    - apply bool_decide_eq_true in Hovt.
      rewrite (bool_decide_eq_false_2 (pkt_packet_type packet ≠ PT_OVT))
        by (by intros Hne). done.
    - simpl in Hformat. apply negb_true_iff in Hformat.
      by rewrite Hformat, andb_false_r. }
  rewrite Hsent. simpl.
  by rewrite UpdateReconnectTimeToBasetime_lookup.
Qed.

(** X18 — [Start] does not consume the gap.  Two [Start] calls with no
    frame in between both measure from the same last packet, so every base
    timestamp is moved by the first gap and then by the second as well. *)
Theorem Start_twice_adds_both_gaps (now1 now2 : time_point) (s : Stream) (track_id : N) :
  _last_pkt_received_time s ≠ time_point_min ->
  _base_timestamp_map (Start now2 (Start now1 s).2).2 !! track_id
  = (λ t, add64 (add64 t (elapsed_microseconds now1 (_last_pkt_received_time s)))
                (elapsed_microseconds now2 (_last_pkt_received_time s)))
      <$> _base_timestamp_map s !! track_id.
Proof.
  intros Hever.
  pose proof (Start_last_pkt_received_time now1 s) as Hsame.
  change (Start now2 (Start now1 s).2).2
    with (UpdateReconnectTimeToBasetime now2 (Start now1 s).2).
  rewrite UpdateReconnectTimeToBasetime_lookup by (by rewrite Hsame).
  rewrite Hsame. simpl.
  rewrite UpdateReconnectTimeToBasetime_lookup by done.
  by destruct (_base_timestamp_map s !! track_id).
Qed.

(** [Examples.playing] received its last packet at tick 10^12 with both
    bases at 100: a [Start] 2 s later and another 5 s later leave them at
    100 + 2,000,000 + 5,000,000. *)
Lemma Start_twice_adds_both_gaps_witness :
  _base_timestamp_map
    (Start (1000000000000 + 5000000000)
       (Start (1000000000000 + 2000000000) Examples.playing).2).2 !! 1%N
  = Some 7000100.
Proof.
  rewrite (Start_twice_adds_both_gaps (1000000000000 + 2000000000)
             (1000000000000 + 5000000000) Examples.playing 1)
    by (vm_compute; discriminate).
  reflexivity.
Defined.

(** A stream with a base timestamp of 5000 µs for track 1, a frame
    dispatched at tick 10^12 and a [Start] 5 s later: the base becomes
    5,005,000 µs. *)
Lemma reconnect_bridges_from_last_frame_witness :
  let s := set_base_timestamp_map {[ 1%N := 5000 ]} MoreExamples.attached in
  _base_timestamp_map
    (Start (1000000000000 + 5000000000)
       (SendFrame 1000000000000 MoreExamples.relay_packet s).1.2).2 !! 1%N
  = Some 5005000.
Proof.
  intros s.
  rewrite (reconnect_bridges_from_last_frame 1000000000000 (1000000000000 + 5000000000)
             MoreExamples.relay_packet s 1).
  - reflexivity.
  - vm_compute. eauto.
  - reflexivity.
  - vm_compute. discriminate.
Defined.

(** ** Wraparound history and the reset *)

Lemma AdjustTimestampByBase_forward_count track_id pts dts max_timestamp s track last :
  GetTrack s track_id = Some track ->
  _last_origin_ts_map0 s !! track_id = Some last ->
  sub64 last pts > div64 max_timestamp 2 ->
  _wraparound_count_map0 (AdjustTimestampByBase track_id pts dts max_timestamp s).2
    !! track_id
  = Some (add64 (default 0 (_wraparound_count_map0 s !! track_id)) 1).
Proof.
  intros Htrack Hlast Hforward. adjust_known Htrack.
  case_bool_decide; simpl; rewrite Hlast;
    rewrite (bool_decide_eq_true_2 _ Hforward); simpl;
    unfold increment;
    repeat case_match; simplify_eq/=; rewrite ?lookup_insert_eq; done.
Qed.

(** X19 — the reset of [Stop] keeps the wraparound history.  The first
    call of the next session is still compared with the last raw PTS of the
    session before: when that one exceeds the new raw PTS by more than
    [max_timestamp / 2], a wraparound is counted, although the source merely
    started again. *)
Theorem wraparound_counted_across_Stop (track_id : N) (pts dts max_timestamp : Z)
    (s : Stream) (track : MediaTrack) (last_origin_pts : Z) :
  GetTrack s track_id = Some track ->
  _last_origin_ts_map0 s !! track_id = Some last_origin_pts ->
  sub64 last_origin_pts pts > div64 max_timestamp 2 ->
  _wraparound_count_map0
    (AdjustTimestampByBase track_id pts dts max_timestamp (Stop s).2).2 !! track_id
  = Some (add64 (default 0 (_wraparound_count_map0 s !! track_id)) 1).
Proof.
  intros Htrack Hlast Hforward.
  assert (Hkept : GetTrack (Stop s).2 track_id = Some track
                  ∧ _last_origin_ts_map0 (Stop s).2 = _last_origin_ts_map0 s
                  ∧ _wraparound_count_map0 (Stop s).2 = _wraparound_count_map0 s).
  { unfold Stop. by case_bool_decide. }
  destruct Hkept as (Htrack' & Horigin & Hcount).
  rewrite (AdjustTimestampByBase_forward_count _ _ _ _ _ track last_origin_pts);
    [by rewrite Hcount | done | by rewrite Horigin | done].
Qed.

(** A session of the 90 kHz track that ends at raw PTS [max - 10], a
    [Stop], and a new session that starts at raw PTS 3: one wraparound is
    counted. *)
Lemma wraparound_counted_across_Stop_witness :
  let s := run [CallAdjustTimestampByBase 1 (Examples.MAX_33BIT - 10)
                  (Examples.MAX_33BIT - 10) Examples.MAX_33BIT] Examples.fresh in
  _wraparound_count_map0
    (AdjustTimestampByBase 1 3 3 Examples.MAX_33BIT (Stop s).2).2 !! 1%N
  = Some 1.
Proof.
  intros s.
  rewrite (wraparound_counted_across_Stop 1 3 3 Examples.MAX_33BIT s
             Examples.video_90k (Examples.MAX_33BIT - 10)).
  - reflexivity.
  - reflexivity.
  - vm_compute. reflexivity.
  - vm_compute. reflexivity.
Defined.

(** ** Unknown tracks, in general *)

(** X20 — on a track id that the Track Directory does not hold,
    [AdjustTimestampByBase] returns -1, leaves its PTS and DTS parameters as
    they were and changes nothing in the stream, and [GetBaseTimestamp]
    returns -1 and changes nothing either. *)
Theorem unknown_track_rejected (track_id : N) (pts dts max_timestamp : Z) (s : Stream) :
  GetTrack s track_id = None ->
  AdjustTimestampByBase track_id pts dts max_timestamp s = (mkAdjusted (-1) pts dts, s)
  ∧ GetBaseTimestamp track_id s = (-1, s).
Proof.
  intros Hnone. split.
  - by apply AdjustTimestampByBase_unknown_track.
  - by apply GetBaseTimestamp_unknown_track.
Qed.

Lemma unknown_track_rejected_witness :
  AdjustTimestampByBase 7 1000 990 Examples.MAX_33BIT Examples.playing
  = (mkAdjusted (-1) 1000 990, Examples.playing)
  ∧ GetBaseTimestamp 7 Examples.playing = (-1, Examples.playing).
Proof.
  apply (unknown_track_rejected 7 1000 990 Examples.MAX_33BIT Examples.playing).
  reflexivity.
Defined.

(** ** The base timestamp in ticks *)

(** X21 — [GetBaseTimestamp] is not the base that [AdjustTimestampByBase]
    applies.  The query converts [base * timescale / 1000000], the
    adjustment [base * (timescale / 1000000)]; on a reachable stream with a
    track of 600 ticks a second and a base of 5000 µs the query answers 3
    ticks, while the first packet of the epoch, raw timestamp 0, is emitted
    at 2 ticks. *)
Theorem GetBaseTimestamp_differs_from_applied_base :
  ∃ (s : Stream) (track_id : N) (max_timestamp : Z),
    reachable s
    ∧ is_Some (GetTrack s track_id)
    ∧ _start_timestamp s = -1
    ∧ _last_origin_ts_map0 s !! track_id = None
    ∧ _wraparound_count_map0 s !! track_id = None
    ∧ (GetBaseTimestamp track_id s).1
      ≠ adj_ret (AdjustTimestampByBase track_id 0 0 max_timestamp s).1.
Proof.
  exists MoreExamples.film_stopped, 1%N, Examples.MAX_33BIT.
  split.
  { exists None, {[ 1%N := MoreExamples.film_600 ]},
      [CallAdjustTimestampByDelta 1 0 Examples.MAX_32BIT;
       CallAdjustTimestampByDelta 1 5000 Examples.MAX_32BIT;
       CallStop].
    reflexivity. }
  vm_compute. repeat split; eauto. discriminate.
Qed.

(** ** Witnesses of the epoch and reset lemmas *)

(** The playing example keeps its start timestamp 11111 through a run
    without a resetting [Stop]. *)
Lemma start_timestamp_stable_in_epoch_witness :
  _start_timestamp
    (run [CallAdjustTimestampByBase 1 9000 9000 Examples.MAX_33BIT;
          CallStart 7; CallSetState CONNECTED;
          CallAdjustTimestampByDelta 2 5 Examples.MAX_32BIT;
          CallAdjustTimestampByBase 2 1 1 Examples.MAX_33BIT]
         Examples.playing)
  = 11111.
Proof.
  rewrite start_timestamp_stable_in_epoch.
  - reflexivity.
  - vm_compute. discriminate.
  - vm_compute. reflexivity.
Defined.

(** A stream with one track and a running total of 5000 µs: after [Stop]
    its one base timestamp is the minimum, 5000. *)
Lemma Stop_rebases_every_entry_witness :
  let s := run [CallAdjustTimestampByDelta 1 0 Examples.MAX_32BIT;
                CallAdjustTimestampByDelta 1 5000 Examples.MAX_32BIT]
               (new_stream None {[ 1%N := MoreExamples.film_600 ]}) in
  _base_timestamp_map (Stop s).2 !! 1%N = Some 5000
  ∧ 5000 = min_last_timestamp s.
Proof.
  intros s.
  assert (Hbase : _base_timestamp_map (Stop s).2 !! 1%N = Some 5000)
    by (vm_compute; reflexivity).
  split; [exact Hbase|].
  apply (Stop_rebases_every_entry s 1 5000).
  - exists None, {[ 1%N := MoreExamples.film_600 ]},
      [CallAdjustTimestampByDelta 1 0 Examples.MAX_32BIT;
       CallAdjustTimestampByDelta 1 5000 Examples.MAX_32BIT].
    reflexivity.
  - vm_compute. discriminate.
  - exact Hbase.
Defined.

(** ** Forward wraparound of the DTS *)

(** X22 — forward wraparound of the DTS.  On a known track whose last raw
    DTS exceeds the raw DTS of the call by more than [max_timestamp / 2],
    the stored DTS counter becomes one more than before (from 0 when
    absent) and the adjusted DTS is the rebased DTS plus the new counter
    times [max_timestamp]; the PTS of the call plays no part. *)
Theorem forward_wraparound_dts (track_id : N) (pts dts max_timestamp : Z)
    (s : Stream) (track : MediaTrack) (last_origin_dts : Z) :
  GetTrack s track_id = Some track ->
  _last_origin_ts_map1 s !! track_id = Some last_origin_dts ->
  sub64 last_origin_dts dts > div64 max_timestamp 2 ->
  let call := AdjustTimestampByBase track_id pts dts max_timestamp s in
  let count := add64 (default 0 (_wraparound_count_map1 s !! track_id)) 1 in
  _wraparound_count_map1 call.2 !! track_id = Some count
  ∧ adj_dts call.1
    = add64 (rebased track track_id dts dts s) (mul64 count max_timestamp).
Proof.
  intros Htrack Hlast Hforward call count. subst call count.
  adjust_known Htrack.
  repeat (case_bool_decide || case_match); simplify_eq/=;
    unfold increment in *; rewrite ?lookup_insert_eq in *; simplify_eq/=; done.
Qed.

Lemma forward_wraparound_dts_witness :
  let s := run [CallAdjustTimestampByBase 1 (Examples.MAX_33BIT - 10)
                  (Examples.MAX_33BIT - 10) Examples.MAX_33BIT] Examples.fresh in
  let call := AdjustTimestampByBase 1 3 3 Examples.MAX_33BIT s in
  _wraparound_count_map1 call.2 !! 1%N = Some 1
  ∧ adj_dts call.1 = 14.
Proof.
  intros s call.
  assert (Htrack : GetTrack s 1 = Some Examples.video_90k) by reflexivity.
  assert (Hlast : _last_origin_ts_map1 s !! 1%N = Some (Examples.MAX_33BIT - 10))
    by (vm_compute; reflexivity).
  assert (Hforward : sub64 (Examples.MAX_33BIT - 10) 3 > div64 Examples.MAX_33BIT 2)
    by (vm_compute; reflexivity).
  pose proof (forward_wraparound_dts 1 3 3 Examples.MAX_33BIT s Examples.video_90k
                (Examples.MAX_33BIT - 10) Htrack Hlast Hforward)
    as (Hcount & Hret).
  subst call. rewrite Hcount, Hret. vm_compute. repeat split.
Defined.
